(** * payeer/api.py: a shallow embedding and its verified properties

    The module [payeer/api.py] is a client of the Payeer payment service:
    it signs checkout links, verifies callbacks and wraps the remote API.
    Python values are modelled as follows.

    - a [str] is the list of its Unicode code points ([pystr]);
    - a [bytes] object is a list of integers in [0, 256) ([pybytes]);
    - a [dict] is an association list in insertion order ([dict]);
    - a call either returns a value or raises ([result]), and methods that
      reach the outside world also produce a trace of events ([M]). *)

From Stdlib Require Import String Ascii.
From Stdlib Require Import ZArith List Bool Lia PeanoNat Permutation.
From Stdlib Require Import Floats.
Import ListNotations.

Local Open Scope Z_scope.

(* ================================================================== *)
(** ** Python strings and bytes *)

Definition pystr := list Z.
Definition pybytes := list Z.

(** A string literal of the source, written in ASCII. *)
Definition py (s : string) : pystr :=
  map (fun a => Z.of_N (N_of_ascii a)) (list_ascii_of_string s).

Fixpoint str_eqb (a b : pystr) : bool :=
  match a, b with
  | [], [] => true
  | x :: a', y :: b' => (x =? y) && str_eqb a' b'
  | _, _ => false
  end.

(** Code points that are Unicode scalar values: everything a [str] can
    hold except the surrogates, which no encoder accepts. *)
Definition is_scalar (c : Z) : Prop :=
  0 <= c < 55296 \/ 57344 <= c < 1114112.

Definition is_text (s : pystr) : Prop := Forall is_scalar s.

Definition is_byte (b : Z) : Prop := 0 <= b < 256.

(** [sep.join(items)] on strings. *)
Fixpoint join (sep : pystr) (items : list pystr) : pystr :=
  match items with
  | [] => []
  | [x] => x
  | x :: rest => x ++ sep ++ join sep rest
  end.

(* ------------------------------------------------------------------ *)
(** *** UTF-8, as [str.encode('utf-8')] and [bytes.decode('utf-8')] *)

(** One code point; [None] stands for UnicodeEncodeError (a surrogate). *)
Definition utf8_encode_cp (c : Z) : option pybytes :=
  if c <? 0 then None
  else if c <? 128 then Some [c]
  else if c <? 2048 then
    Some [Z.lor 192 (Z.shiftr c 6); Z.lor 128 (Z.land c 63)]
  else if c <? 55296 then
    Some [Z.lor 224 (Z.shiftr c 12);
          Z.lor 128 (Z.land (Z.shiftr c 6) 63);
          Z.lor 128 (Z.land c 63)]
  else if c <? 57344 then None
  else if c <? 65536 then
    Some [Z.lor 224 (Z.shiftr c 12);
          Z.lor 128 (Z.land (Z.shiftr c 6) 63);
          Z.lor 128 (Z.land c 63)]
  else if c <? 1114112 then
    Some [Z.lor 240 (Z.shiftr c 18);
          Z.lor 128 (Z.land (Z.shiftr c 12) 63);
          Z.lor 128 (Z.land (Z.shiftr c 6) 63);
          Z.lor 128 (Z.land c 63)]
  else None.

Fixpoint utf8_encode (s : pystr) : option pybytes :=
  match s with
  | [] => Some []
  | c :: rest =>
      match utf8_encode_cp c, utf8_encode rest with
      | Some b, Some bs => Some (b ++ bs)
      | _, _ => None
      end
  end.

Definition is_cont (b : Z) : bool := (128 <=? b) && (b <? 192).

(** The strict decoder: overlong forms, surrogates and values beyond
    U+10FFFF are refused ([None] stands for UnicodeDecodeError). *)
Fixpoint utf8_decode (bs : pybytes) : option pystr :=
  match bs with
  | [] => Some []
  | b0 :: r0 =>
      if (0 <=? b0) && (b0 <? 128) then
        option_map (cons b0) (utf8_decode r0)
      else if (194 <=? b0) && (b0 <? 224) then
        match r0 with
        | b1 :: r1 =>
            if is_cont b1 then
              option_map (cons (Z.lor (Z.shiftl (Z.land b0 31) 6) (Z.land b1 63)))
                         (utf8_decode r1)
            else None
        | _ => None
        end
      else if (224 <=? b0) && (b0 <? 240) then
        match r0 with
        | b1 :: b2 :: r2 =>
            let c := Z.lor (Z.shiftl (Z.land b0 15) 12)
                       (Z.lor (Z.shiftl (Z.land b1 63) 6) (Z.land b2 63)) in
            if is_cont b1 && is_cont b2 && (2048 <=? c)
               && negb ((55296 <=? c) && (c <? 57344)) then
              option_map (cons c) (utf8_decode r2)
            else None
        | _ => None
        end
      else if (240 <=? b0) && (b0 <? 245) then
        match r0 with
        | b1 :: b2 :: b3 :: r3 =>
            let c := Z.lor (Z.shiftl (Z.land b0 7) 18)
                       (Z.lor (Z.shiftl (Z.land b1 63) 12)
                          (Z.lor (Z.shiftl (Z.land b2 63) 6) (Z.land b3 63))) in
            if is_cont b1 && is_cont b2 && is_cont b3
               && (65536 <=? c) && (c <? 1114112) then
              option_map (cons c) (utf8_decode r3)
            else None
        | _ => None
        end
      else None
  end.

(* ================================================================== *)
(** ** hashlib.sha256 (FIPS 180-4) on 32-bit words held in [Z] *)

Module SHA256.

Definition wrap (x : Z) : Z := x mod 4294967296.
Definition add32 (x y : Z) : Z := wrap (x + y).
Definition rotr (n x : Z) : Z :=
  wrap (Z.lor (Z.shiftr x n) (Z.shiftl x (32 - n))).
Definition not32 (x : Z) : Z := Z.lxor x 4294967295.

Definition Ch (x y z : Z) : Z := Z.lxor (Z.land x y) (Z.land (not32 x) z).
Definition Maj (x y z : Z) : Z :=
  Z.lxor (Z.lxor (Z.land x y) (Z.land x z)) (Z.land y z).
Definition bsig0 (x : Z) : Z := Z.lxor (Z.lxor (rotr 2 x) (rotr 13 x)) (rotr 22 x).
Definition bsig1 (x : Z) : Z := Z.lxor (Z.lxor (rotr 6 x) (rotr 11 x)) (rotr 25 x).
Definition ssig0 (x : Z) : Z := Z.lxor (Z.lxor (rotr 7 x) (rotr 18 x)) (Z.shiftr x 3).
Definition ssig1 (x : Z) : Z := Z.lxor (Z.lxor (rotr 17 x) (rotr 19 x)) (Z.shiftr x 10).

(** The constants are read off the primes, as the standard defines them:
    the round constants are the first 32 bits of the fractional parts of
    the cube roots of the first 64 primes, the initial hash value those of
    the square roots of the first 8. *)
Definition is_prime (n : Z) : bool :=
  forallb (fun d => negb (n mod d =? 0))
          (map Z.of_nat (seq 2 (Z.to_nat n - 2))).

Definition primes : list Z :=
  Eval vm_compute in filter is_prime (map Z.of_nat (seq 2 310)).

Fixpoint cube_root_bits (bits : nat) (n r : Z) : Z :=
  match bits with
  | O => r
  | S b =>
      let c := r + 2 ^ Z.of_nat b in
      if c * c * c <=? n then cube_root_bits b n c else cube_root_bits b n r
  end.

(** The integer part of the cube root, for [n] below [2 ^ 108]. *)
Definition cube_root (n : Z) : Z := cube_root_bits 36 n 0.

Definition K : list Z :=
  Eval vm_compute in map (fun p => wrap (cube_root (p * 2 ^ 96))) primes.

(** The eight working variables, and the running hash value. *)
Record state := State {
  sa : Z; sb : Z; sc : Z; sd : Z; se : Z; sf : Z; sg : Z; sh : Z }.

Definition fractional_sqrt (p : Z) : Z := wrap (Z.sqrt (p * 2 ^ 64)).

Definition H0 : state :=
  Eval vm_compute in
  State (fractional_sqrt 2) (fractional_sqrt 3) (fractional_sqrt 5)
        (fractional_sqrt 7) (fractional_sqrt 11) (fractional_sqrt 13)
        (fractional_sqrt 17) (fractional_sqrt 19).

(** Padding: a 1 bit, zeros up to 56 mod 64, the bit length on 8 bytes. *)
Definition be_bytes (n : nat) (x : Z) : pybytes :=
  map (fun i => (Z.shiftr x (8 * Z.of_nat i)) mod 256) (rev (seq 0 n)).

Definition pad (msg : pybytes) : pybytes :=
  let len := Z.of_nat (length msg) in
  let zeros := Z.to_nat ((55 - len) mod 64) in
  msg ++ [128] ++ repeat 0 zeros ++ be_bytes 8 (8 * len).

Fixpoint words (n : nat) (bs : pybytes) : list Z :=
  match n with
  | O => []
  | S n' =>
      match bs with
      | b0 :: b1 :: b2 :: b3 :: rest =>
          (b0 * 16777216 + b1 * 65536 + b2 * 256 + b3) :: words n' rest
      | _ => []
      end
  end.

(** The message schedule, kept newest first while it is extended. *)
Fixpoint extend (n : nat) (w : list Z) : list Z :=
  match n with
  | O => w
  | S n' =>
      let x := add32 (add32 (ssig1 (nth 1 w 0)) (nth 6 w 0))
                     (add32 (ssig0 (nth 14 w 0)) (nth 15 w 0)) in
      extend n' (x :: w)
  end.

Definition schedule (block : list Z) : list Z :=
  rev (extend 48 (rev block)).

Definition round (s : state) (kw : Z * Z) : state :=
  let t1 := add32 (add32 (add32 (sh s) (bsig1 (se s)))
                         (add32 (Ch (se s) (sf s) (sg s)) (fst kw))) (snd kw) in
  let t2 := add32 (bsig0 (sa s)) (Maj (sa s) (sb s) (sc s)) in
  State (add32 t1 t2) (sa s) (sb s) (sc s) (add32 (sd s) t1) (se s) (sf s) (sg s).

Definition compress (h : state) (block : list Z) : state :=
  let s := fold_left round (combine K (schedule block)) h in
  State (add32 (sa h) (sa s)) (add32 (sb h) (sb s))
        (add32 (sc h) (sc s)) (add32 (sd h) (sd s))
        (add32 (se h) (se s)) (add32 (sf h) (sf s))
        (add32 (sg h) (sg s)) (add32 (sh h) (sh s)).

Fixpoint blocks (n : nat) (h : state) (bs : pybytes) : state :=
  match n with
  | O => h
  | S n' => blocks n' (compress h (words 16 (firstn 64 bs))) (skipn 64 bs)
  end.

Definition digest_state (msg : pybytes) : state :=
  let p := pad msg in
  blocks (Nat.div (length p) 64) H0 p.

Definition hex_digit (x : Z) : Z :=
  if x <? 10 then 48 + x else 87 + x.

Definition hex8 (w : Z) : pystr :=
  map (fun i => hex_digit ((Z.shiftr w (4 * Z.of_nat i)) mod 16))
      [7; 6; 5; 4; 3; 2; 1; 0]%nat.

(** [sha256(data).hexdigest()]: 64 lowercase hexadecimal digits. *)
Definition hexdigest (msg : pybytes) : pystr :=
  let s := digest_state msg in
  hex8 (sa s) ++ hex8 (sb s) ++ hex8 (sc s) ++ hex8 (sd s) ++
  hex8 (se s) ++ hex8 (sf s) ++ hex8 (sg s) ++ hex8 (sh s).

End SHA256.

(** [str.upper()] on the ASCII range, which is all a hex digest holds. *)
Definition upper_char (c : Z) : Z :=
  if (97 <=? c) && (c <=? 122) then c - 32 else c.

Definition upper (s : pystr) : pystr := map upper_char s.

(* ================================================================== *)
(** ** base64.b64encode and base64.b64decode (RFC 4648, with padding) *)

Definition b64_alphabet : pystr :=
  py "ABCDEFGHIJKLMNOPQRSTUVWXYZabcdefghijklmnopqrstuvwxyz0123456789+/".

Definition b64_char (i : Z) : Z := nth (Z.to_nat i) b64_alphabet 0.

Fixpoint index_of (c : Z) (l : list Z) (i : Z) : option Z :=
  match l with
  | [] => None
  | x :: rest => if x =? c then Some i else index_of c rest (i + 1)
  end.

Definition b64_index (c : Z) : option Z := index_of c b64_alphabet 0.

Definition b64_pad : Z := 61.

Fixpoint b64encode (bs : pybytes) : pybytes :=
  match bs with
  | [] => []
  | [b0] =>
      [b64_char (Z.shiftr b0 2);
       b64_char (Z.shiftl (Z.land b0 3) 4);
       b64_pad; b64_pad]
  | [b0; b1] =>
      [b64_char (Z.shiftr b0 2);
       b64_char (Z.lor (Z.shiftl (Z.land b0 3) 4) (Z.shiftr b1 4));
       b64_char (Z.shiftl (Z.land b1 15) 2);
       b64_pad]
  | b0 :: b1 :: b2 :: rest =>
      b64_char (Z.shiftr b0 2) ::
      b64_char (Z.lor (Z.shiftl (Z.land b0 3) 4) (Z.shiftr b1 4)) ::
      b64_char (Z.lor (Z.shiftl (Z.land b1 15) 2) (Z.shiftr b2 6)) ::
      b64_char (Z.land b2 63) :: b64encode rest
  end.

Definition b64_byte0 (i0 i1 : Z) : Z := Z.lor (Z.shiftl i0 2) (Z.shiftr i1 4).
Definition b64_byte1 (i1 i2 : Z) : Z :=
  Z.lor (Z.shiftl (Z.land i1 15) 4) (Z.shiftr i2 2).
Definition b64_byte2 (i2 i3 : Z) : Z := Z.lor (Z.shiftl (Z.land i2 3) 6) i3.

(** The decoder takes four characters at a time; padding may only close
    the input. [None] stands for binascii.Error. *)
Fixpoint b64decode (cs : pybytes) : option pybytes :=
  match cs with
  | [] => Some []
  | c0 :: c1 :: c2 :: c3 :: rest =>
      match b64_index c0, b64_index c1 with
      | Some i0, Some i1 =>
          if (c2 =? b64_pad) && (c3 =? b64_pad) then
            match rest with
            | [] => Some [b64_byte0 i0 i1]
            | _ => None
            end
          else
            match b64_index c2 with
            | Some i2 =>
                if c3 =? b64_pad then
                  match rest with
                  | [] => Some [b64_byte0 i0 i1; b64_byte1 i1 i2]
                  | _ => None
                  end
                else
                  match b64_index c3 with
                  | Some i3 =>
                      option_map
                        (fun bs => b64_byte0 i0 i1 :: b64_byte1 i1 i2
                                   :: b64_byte2 i2 i3 :: bs)
                        (b64decode rest)
                  | None => None
                  end
            | None => None
            end
      | _, _ => None
      end
  | _ => None
  end.

(* ================================================================== *)
(** ** Python values, exceptions and dictionaries *)

(** The objects the module handles without looking inside: [None], a
    [str], a [bytes] object, or any other object, of which only
    [str(obj)] is observed. *)
Inductive pyval :=
| PyNone
| PyStr (s : pystr)
| PyBytes (data : pybytes)
| PyObj (shown : pystr).

(** [repr] of a [bytes] object: double quotes only when the data hold a
    single quote and no double quote; the quote and the backslash are
    escaped, tab, newline and return have their letters, and what is not
    printable ASCII is written [\xNN]. *)
Definition bytes_quote (data : pybytes) : Z :=
  if existsb (Z.eqb 39) data && negb (existsb (Z.eqb 34) data) then 34 else 39.

Definition repr_byte (quote c : Z) : pystr :=
  if (c =? quote) || (c =? 92) then [92; c]
  else if c =? 9 then [92; 116]
  else if c =? 10 then [92; 110]
  else if c =? 13 then [92; 114]
  else if (c <? 32) || (127 <=? c) then
    [92; 120; SHA256.hex_digit (Z.shiftr c 4); SHA256.hex_digit (Z.land c 15)]
  else [c].

Definition bytes_repr (data : pybytes) : pystr :=
  let quote := bytes_quote data in
  [98; quote] ++ flat_map (repr_byte quote) data ++ [quote].

(** [str(value)] *)
Definition py_str (v : pyval) : pystr :=
  match v with
  | PyNone => py "None"
  | PyStr s => s
  | PyBytes data => bytes_repr data
  | PyObj shown => shown
  end.

(** A decoded JSON document, as [response.json()] returns it. *)
#[local] Set Warnings "-register-all".
Inductive json :=
| JNull
| JBool (b : bool)
| JInt (n : Z)
| JFloat (x : float)
| JStr (s : pystr)
| JList (items : list json)
| JDict (fields : list (pystr * json)).

Inductive exn :=
| ValidationError
| PayeerAPIException (arg : json)
| TypeError
| KeyError (key : pystr)
| AttributeError
| UnicodeEncodeError
| UnicodeDecodeError
| TransportError (name : pystr).

Inductive result (A : Type) :=
| Return (a : A)
| Raise (e : exn).
Arguments Return {A} a.
Arguments Raise {A} e.

(** A [dict] keeps its keys in insertion order. *)
Definition dict (V : Type) := list (pystr * V).

Fixpoint dict_get {V} (d : dict V) (k : pystr) : option V :=
  match d with
  | [] => None
  | (k', v) :: rest => if str_eqb k' k then Some v else dict_get rest k
  end.

(** [d.get(k, default)] *)
Definition dict_get_default {V} (d : dict V) (k : pystr) (default : V) : V :=
  match dict_get d k with
  | Some v => v
  | None => default
  end.

(** [d[k]] *)
Definition getitem {V} (d : dict V) (k : pystr) : result V :=
  match dict_get d k with
  | Some v => Return v
  | None => Raise (KeyError k)
  end.

(** [d[k] = v]: an existing key keeps its place, a new one goes last. *)
Definition dict_set {V} (d : dict V) (k : pystr) (v : V) : dict V :=
  match dict_get d k with
  | Some _ => map (fun kv => if str_eqb (fst kv) k then (k, v) else kv) d
  | None => d ++ [(k, v)]
  end.

(** [d.update(other)] *)
Definition dict_update {V} (d other : dict V) : dict V :=
  fold_left (fun acc kv => dict_set acc (fst kv) (snd kv)) other d.

(** [list(d.values())] *)
Definition dict_values {V} (d : dict V) : list V := map snd d.

Definition dict_keys {V} (d : dict V) : list pystr := map fst d.

(** [l.append(x)] changes the list in place and returns [None]: the first
    component is the list afterwards, the second the value of the call. *)
Definition list_append {A} (l : list A) (x : A) : list A * option (list A) :=
  (l ++ [x], None).

(* ------------------------------------------------------------------ *)
(** *** Truth values and comparisons on JSON documents *)

Definition json_truthy (v : json) : bool :=
  match v with
  | JNull => false
  | JBool b => b
  | JInt n => negb (n =? 0)
  | JFloat x => negb (PrimFloat.eqb x PrimFloat.zero)
  | JStr s => match s with [] => false | _ => true end
  | JList items => match items with [] => false | _ => true end
  | JDict fields => match fields with [] => false | _ => true end
  end.

(** [v > 0]: numbers compare, everything else is a TypeError. *)
Definition json_gt_zero (v : json) : result bool :=
  match v with
  | JBool b => Return b
  | JInt n => Return (0 <? n)
  | JFloat x => Return (PrimFloat.ltb PrimFloat.zero x)
  | _ => Raise TypeError
  end.

(** [response.get(k, default)]: only a JSON object has [get]. *)
Definition json_get (v : json) (k : pystr) (default : json) : result json :=
  match v with
  | JDict fields => Return (dict_get_default fields k default)
  | _ => Raise AttributeError
  end.

(** [response[k]] on a JSON object. *)
Definition json_getitem (v : json) (k : pystr) : result json :=
  match v with
  | JDict fields => getitem fields k
  | _ => Raise TypeError
  end.

(* ================================================================== *)
(** ** Effects: a result together with the trace of what was done *)

Inductive event :=
| EvSign (params : option (list pyval))       (* generate_signature entered *)
| EvPost (url : pystr) (data : dict pyval).   (* requests.post issued *)

Definition M (A : Type) : Type := result A * list event.

Definition ret {A} (a : A) : M A := (Return a, []).
Definition raise {A} (e : exn) : M A := (Raise e, []).
Definition lift {A} (r : result A) : M A := (r, []).
Definition tell (ev : event) : M unit := (Return tt, [ev]).

Definition bind {A B} (m : M A) (k : A -> M B) : M B :=
  match m with
  | (Return a, tr) => let (r, tr') := k a in (r, tr ++ tr')
  | (Raise e, tr) => (Raise e, tr)
  end.

Notation "x <- m ;; k" := (bind m (fun x => k))
  (at level 61, m at next level, right associativity).
Notation "m ;;; k" := (bind m (fun _ => k))
  (at level 61, right associativity).

(** [try: m except PayeerAPIException: handler] *)
Definition except_PayeerAPIException {A} (m : M A) (handler : A) : M A :=
  match m with
  | (Raise (PayeerAPIException _), tr) => (Return handler, tr)
  | other => other
  end.

(* ================================================================== *)
(** ** The regular expressions the module uses, and [re.search] *)

Inductive regex :=
| Chr (c : Z)                           (* a literal character *)
| Digit                                 (* \d *)
| Eol                                   (* $ *)
| Cat (r1 r2 : regex)
| Rep (r : regex) (lo hi : nat).        (* r{lo,hi} *)

Section Regex.

(** What [\d] accepts beyond 0-9 comes from the Unicode database. *)
Variable digit : Z -> bool.

(** [$] holds at the end, and just before a newline that ends the string. *)
Definition at_end (s : pystr) : bool :=
  match s with
  | [] => true
  | [c] => c =? 10
  | _ => false
  end.

(** Backtracking match at the head of [s]; [k] receives what is left. *)
Fixpoint matches (r : regex) (s : pystr) (k : pystr -> bool) : bool :=
  match r with
  | Chr c =>
      match s with
      | x :: t => (x =? c) && k t
      | [] => false
      end
  | Digit =>
      match s with
      | x :: t => digit x && k t
      | [] => false
      end
  | Eol => at_end s && k s
  | Cat r1 r2 => matches r1 s (fun t => matches r2 t k)
  | Rep r0 lo hi =>
      (fix rep (lo hi : nat) (s : pystr) {struct hi} : bool :=
         match hi with
         | O => match lo with O => k s | S _ => false end
         | S hi' =>
             match lo with
             | O => matches r0 s (fun t => rep O hi' t) || k s
             | S lo' => matches r0 s (fun t => rep lo' hi' t)
             end
         end) lo hi s
  end.

(** [re.search]: a match starting anywhere. *)
Fixpoint search (r : regex) (s : pystr) : bool :=
  matches r s (fun _ => true) ||
  match s with
  | [] => false
  | _ :: t => search r t
  end.

End Regex.

(* ================================================================== *)
(** ** What the module imports *)

(** Settings, constants, the order form and the transport.
    [payeer.settings], [payeer.constants] and [payeer.forms] are read at
    import time; [requests.post(...).json()] reaches the remote service. *)
Record Env := {
  PAYEER : dict pyval;
  PAYEER_ALLOWED_IPS : list pystr;
  LANGUAGE_RU : pyval;
  (** [MerchantForm(data)] after [is_valid()]: its [cleaned_data], which
      holds the fields that passed validation. *)
  MerchantForm : dict pyval -> dict pyval;
  (** the decoded JSON body, or the name of what the transport raised *)
  requests_post : pystr -> dict pyval -> pystr + json;
  (** the Unicode decimal digits (category Nd) beyond ASCII, where the
      only ones are 0-9 *)
  unicode_decimal : Z -> bool
}.

Record HttpRequest := {
  META : dict pystr;
  POST : dict pystr
}.

Record HttpResponse := { content : pystr }.

(* ================================================================== *)
(** ** payeer/api.py *)

(** [class WalletValidator(RegexValidator): regex = 'P\d{7,12}$'] *)
Definition WalletValidator_regex : regex :=
  Cat (Chr 80) (Cat (Rep Digit 7 12) Eol).

Definition is_space (c : Z) : bool :=
  ((9 <=? c) && (c <=? 13)) || ((28 <=? c) && (c <=? 32))
  || (c =? 133) || (c =? 160) || (c =? 5760)
  || ((8192 <=? c) && (c <=? 8202))
  || (c =? 8232) || (c =? 8233) || (c =? 8239) || (c =? 8287) || (c =? 12288).

Fixpoint lstrip (s : pystr) : pystr :=
  match s with
  | c :: t => if is_space c then lstrip t else s
  | [] => []
  end.

(** [s.strip()] *)
Definition strip (s : pystr) : pystr := rev (lstrip (rev (lstrip s))).

(** [s.split(sep)] for a one-character separator. *)
Fixpoint split (sep : Z) (s : pystr) : list pystr :=
  match s with
  | [] => [[]]
  | c :: t =>
      if c =? sep then [] :: split sep t
      else match split sep t with
           | w :: ws => (c :: w) :: ws
           | [] => [[c]]
           end
  end.

Definition str_truthy (s : pystr) : bool :=
  match s with [] => false | _ => true end.

Definition get_client_ip (request : HttpRequest) : option pystr :=
  let otherwise :=
    match dict_get (META request) (py "HTTP_X_REAL_IP") with
    | Some real_ip =>
        if str_truthy real_ip then Some real_ip
        else dict_get (META request) (py "REMOTE_ADDR")
    | None => dict_get (META request) (py "REMOTE_ADDR")
    end in
  match dict_get (META request) (py "HTTP_X_FORWARDED_FOR") with
  | Some x_forwarded_for =>
      if str_truthy x_forwarded_for
      then Some (strip (last (split 44 x_forwarded_for) []))
      else otherwise
  | None => otherwise
  end.

(** [ip in PAYEER_ALLOWED_IPS] *)
Definition ip_in (ip : option pystr) (allowed : list pystr) : bool :=
  match ip with
  | Some s => existsb (str_eqb s) allowed
  | None => false
  end.

(* ------------------------------------------------------------------ *)
(** *** urllib.parse.urlencode *)

Definition is_always_safe (b : Z) : bool :=
  ((65 <=? b) && (b <=? 90)) || ((97 <=? b) && (b <=? 122))
  || ((48 <=? b) && (b <=? 57))
  || (b =? 95) || (b =? 46) || (b =? 45) || (b =? 126).

Definition percent_digit (x : Z) : Z :=
  if x <? 10 then 48 + x else 55 + x.

Definition quote_byte (b : Z) : pystr :=
  if b =? 32 then [43]
  else if is_always_safe b then [b]
  else [37; percent_digit (Z.shiftr b 4); percent_digit (Z.land b 15)].

(** [quote_plus(s)] with no extra safe characters, as [urlencode] calls it. *)
Definition quote_plus (s : pystr) : result pystr :=
  match utf8_encode s with
  | Some bs => Return (flat_map quote_byte bs)
  | None => Raise UnicodeEncodeError
  end.

(** A value as [urlencode] quotes it: a [bytes] value byte by byte, any
    other value through [str(value)]. *)
Definition quote_value (v : pyval) : result pystr :=
  match v with
  | PyBytes data => Return (flat_map quote_byte data)
  | _ => quote_plus (py_str v)
  end.

Fixpoint urlencode_items (query : dict pyval) : result (list pystr) :=
  match query with
  | [] => Return []
  | (k, v) :: rest =>
      match quote_plus k with
      | Return qk =>
          match quote_value v with
          | Return qv =>
              match urlencode_items rest with
              | Return items => Return ((qk ++ py "=" ++ qv) :: items)
              | Raise e => Raise e
              end
          | Raise e => Raise e
          end
      | Raise e => Raise e
      end
  end.

(** [urlencode(query)]: every key and value quoted, joined by [&]. *)
Definition urlencode (query : dict pyval) : result pystr :=
  match urlencode_items query with
  | Return items => Return (join (py "&") items)
  | Raise e => Raise e
  end.

Record PayeerApi := {
  _account : pyval;
  _api_id : pyval;
  _api_pass : pyval;
  _merchant_id : pyval;
  _merchant_secret_key : pyval
}.

Definition domain : pystr := py "https://payeer.com/".
Definition merchant_url : pystr := domain ++ py "merchant/?".
Definition api_url : pystr := domain ++ py "ajax/api/api.php".

Record merchant_result := {
  location : pystr;
  signature : pystr;
  description : pyval;
  params : dict pyval
}.

(** [generate_description]: only a [str] has [encode]. *)
Definition generate_description (description : pyval) : result pystr :=
  match description with
  | PyStr s =>
      match utf8_encode s with
      | Some bs =>
          match utf8_decode (b64encode bs) with
          | Some out => Return out
          | None => Raise UnicodeDecodeError
          end
      | None => Raise UnicodeEncodeError
      end
  | _ => Raise AttributeError
  end.

(** The items of [params] when every one of them is a [str]. *)
Fixpoint all_str (items : list pyval) : option (list pystr) :=
  match items with
  | [] => Some []
  | PyStr s :: rest => option_map (cons s) (all_str rest)
  | _ :: _ => None
  end.

(** [sha256(':'.join(params).encode()).hexdigest().upper()]; [None] is
    Python's [None], which cannot be joined. *)
Definition generate_signature (params : option (list pyval)) : result pystr :=
  match params with
  | None => Raise TypeError
  | Some items =>
      match all_str items with
      | None => Raise TypeError
      | Some fields =>
          match utf8_encode (join (py ":") fields) with
          | Some bs => Return (upper (SHA256.hexdigest bs))
          | None => Raise UnicodeEncodeError
          end
      end
  end.

Section Methods.

Variable E : Env.

Definition is_digit (c : Z) : bool :=
  ((48 <=? c) && (c <=? 57)) || ((128 <=? c) && unicode_decimal E c).

(** [validator = WalletValidator(); validator(wallet)]: Django's
    RegexValidator raises unless [regex.search(str(value))] finds a match. *)
Definition validate_wallet (wallet : pyval) : result unit :=
  if search is_digit WalletValidator_regex (py_str wallet)
  then Return tt
  else Raise ValidationError.

Definition call_generate_signature (params : option (list pyval)) : M pystr :=
  tell (EvSign params) ;;; lift (generate_signature params).

Definition merchant (self : PayeerApi)
    (order_id amount currency description language : pyval)
    (kwargs : dict pyval) : M merchant_result :=
  lift (validate_wallet (_account self)) ;;;
  let language :=
    match language with
    | PyNone => dict_get_default (PAYEER E) (py "LANGUAGE") (LANGUAGE_RU E)
    | _ => language
    end in
  let data := MerchantForm E
    [ (py "order_id", order_id);
      (py "amount", amount);
      (py "currency", currency);
      (py "description", description);
      (py "language", language) ] in
  desc_str <- lift (generate_description
                      (dict_get_default data (py "description") (PyStr []))) ;;
  d_order_id <- lift (getitem data (py "order_id")) ;;
  d_amount <- lift (getitem data (py "amount")) ;;
  d_currency <- lift (getitem data (py "currency")) ;;
  let params_for_sign :=
    [ _merchant_id self; d_order_id; d_amount; d_currency; PyStr desc_str;
      _merchant_secret_key self ] in
  signature <- call_generate_signature (Some params_for_sign) ;;
  d_language <- lift (getitem data (py "language")) ;;
  let params :=
    [ (py "m_shop", _merchant_id self);
      (py "m_orderid", d_order_id);
      (py "m_amount", d_amount);
      (py "m_curr", d_currency);
      (py "m_desc", PyStr desc_str);
      (py "m_sign", PyStr signature);
      (py "m_process", PyStr (py "send"));
      (py "lang", d_language) ] in
  let params := dict_update params kwargs in
  query <- lift (urlencode params) ;;
  ret {| location := merchant_url ++ query;
         signature := signature;
         description := description;
         params := params |}.

Definition needed_params : list pystr :=
  [ py "m_operation_id"; py "m_operation_ps";
    py "m_operation_date"; py "m_operation_pay_date";
    py "m_shop"; py "m_orderid";
    py "m_amount"; py "m_curr";
    py "m_desc"; py "m_status" ].

Definition merchant_handler (self : PayeerApi) (request : HttpRequest)
    : M (bool * dict pystr * HttpResponse) :=
  let request_ip := get_client_ip request in
  if negb (ip_in request_ip (PAYEER_ALLOWED_IPS E)) then
    raise (PayeerAPIException (JStr (py "Wrong request IP")))
  else
    let received_params :=
      fold_left
        (fun acc param_name =>
           dict_set acc param_name (dict_get_default (POST request) param_name []))
        needed_params [] in
    let m_params := dict_get_default (POST request) (py "m_params") [] in
    let received_params :=
      if str_truthy m_params
      then dict_set received_params (py "m_params") m_params
      else received_params in
    let params_for_sign :=
      snd (list_append (map PyStr (dict_values received_params))
                       (_merchant_secret_key self)) in
    sign <- call_generate_signature params_for_sign ;;
    m_operation_id <- lift (getitem received_params (py "m_operation_id")) ;;
    accepted <-
      (if str_truthy m_operation_id then
         m_sign <- lift (getitem received_params (py "m_sign")) ;;
         if str_eqb sign m_sign then
           m_status <- lift (getitem received_params (py "m_status")) ;;
           ret (str_eqb m_status (py "success"))
         else ret false
       else ret false) ;;
    m_orderid <- lift (getitem received_params (py "m_orderid")) ;;
    if (accepted : bool) then
      ret (true, received_params, {| content := m_orderid ++ py "|success" |})
    else
      ret (false, received_params, {| content := m_orderid ++ py "|error" |}).

(** [requests.post(self.api_url, params).json()] *)
Definition post_json (url : pystr) (data : dict pyval) : M json :=
  tell (EvPost url data) ;;;
  match requests_post E url data with
  | inr body => ret body
  | inl name => raise (TransportError name)
  end.

Definition credentials (self : PayeerApi) : dict pyval :=
  [ (py "account", _account self);
    (py "apiId", _api_id self);
    (py "apiPass", _api_pass self) ].

Definition request_api (self : PayeerApi) (params : dict pyval) : M json :=
  let params := dict_update params (credentials self) in
  response <- post_json api_url params ;;
  errors <- lift (json_get response (py "errors") JNull) ;;
  if json_truthy errors then raise (PayeerAPIException errors)
  else ret response.

Definition get_balance (self : PayeerApi) : M json :=
  response <- request_api self [(py "action", PyStr (py "balance"))] ;;
  lift (json_getitem response (py "balance")).

Definition check_user (self : PayeerApi) (user : pyval) : M bool :=
  except_PayeerAPIException
    (request_api self [(py "action", PyStr (py "checkUser")); (py "user", user)] ;;;
     ret true)
    false.

Definition get_exchange_rate (self : PayeerApi) (output : pyval) : M json :=
  response <- request_api self
    [(py "action", PyStr (py "getExchangeRate")); (py "output", output)] ;;
  lift (json_getitem response (py "rate")).

Definition get_pay_systems (self : PayeerApi) : M json :=
  response <- request_api self [(py "action", PyStr (py "getPaySystems"))] ;;
  lift (json_getitem response (py "list")).

Definition get_history_info (self : PayeerApi) (history_id : pyval) : M json :=
  response <- request_api self
    [(py "action", PyStr (py "historyInfo")); (py "historyId", history_id)] ;;
  lift (json_getitem response (py "info")).


Definition is_not_None (v : pyval) : bool :=
  match v with PyNone => false | _ => true end.

Definition transfer_data
    (sum to cur_in cur_out comment protect protect_period protect_code : pyval)
    : dict pyval :=
  let data :=
    [ (py "action", PyStr (py "transfer"));
      (py "sum", sum);
      (py "to", to);
      (py "curIn", cur_in);
      (py "curOut", cur_out) ] in
  let data := if is_not_None comment
              then dict_set data (py "comment") comment else data in
  if is_not_None protect then
    let data := dict_set data (py "protect") protect in
    let data := if is_not_None protect_period
                then dict_set data (py "protectPeriod") protect_period
                else data in
    if is_not_None protect_code
    then dict_set data (py "protectCode") protect_code
    else data
  else data.

Definition transfer (self : PayeerApi)
    (sum to cur_in cur_out comment protect protect_period protect_code : pyval)
    : M bool :=
  lift (validate_wallet to) ;;;
  let data := transfer_data sum to cur_in cur_out
                comment protect protect_period protect_code in
  response <- request_api self data ;;
  historyId <- lift (json_get response (py "historyId") (JInt 0)) ;;
  positive <- lift (json_gt_zero historyId) ;;
  if (positive : bool) then ret true else ret false.

Definition output_data (action : pystr)
    (ps ps_account sum_in cur_in cur_out : pyval) : dict pyval :=
  [ (py "action", PyStr action);
    (py "ps", ps);
    (py "param_ACCOUNT_NUMBER", ps_account);
    (py "sumIn", sum_in);
    (py "curIn", cur_in);
    (py "curOut", cur_out) ].


Definition output (self : PayeerApi)
    (ps ps_account sum_in cur_in cur_out : pyval) : M json :=
  request_api self
    (output_data (py "output") ps ps_account sum_in cur_in cur_out).

Definition history (self : PayeerApi) (params : dict pyval) : M json :=
  let params := dict_set params (py "action") (PyStr (py "history")) in
  response <- request_api self params ;;
  lift (json_getitem response (py "history")).

(** The client the module builds from the settings when it is imported. *)
Definition payeer_api : PayeerApi :=
  {| _account := dict_get_default (PAYEER E) (py "ACCOUNT") PyNone;
     _api_id := dict_get_default (PAYEER E) (py "API_ID") PyNone;
     _api_pass := dict_get_default (PAYEER E) (py "API_PASS") PyNone;
     _merchant_id := dict_get_default (PAYEER E) (py "MERCHANT_ID") PyNone;
     _merchant_secret_key :=
       dict_get_default (PAYEER E) (py "MERCHANT_SECRET_KEY") PyNone |}.

End Methods.

(* ================================================================== *)
(** ** Vocabulary of the statements *)

Definition is_scalarb (c : Z) : bool :=
  ((0 <=? c) && (c <? 55296)) || ((57344 <=? c) && (c <? 1114112)).

Definition is_textb (s : pystr) : bool := forallb is_scalarb s.

(** The characters of an uppercase hexadecimal numeral: 0-9 and A-F. *)
Definition is_upper_hex (c : Z) : Prop :=
  48 <= c <= 57 \/ 65 <= c <= 70.

(** How the receiving side reads [m_desc]:
    [base64.b64decode(text).decode('utf-8')]. *)
Definition decode_description (text : pystr) : option pystr :=
  if forallb (fun c => (0 <=? c) && (c <? 128)) text then
    match b64decode text with
    | Some bs => utf8_decode bs
    | None => None
    end
  else None.

(** A decimal digit: one of 0-9, or a character beyond ASCII that
    Unicode lists as a decimal digit (the Arabic-Indic digits U+0660 to
    U+0669, for example).  No other ASCII character is one. *)
Definition decimal_digit (E : Env) (c : Z) : Prop :=
  48 <= c <= 57 \/ (128 <= c /\ unicode_decimal E c = true).

(** A wallet number in full: [P] and then 7 to 12 decimal digits, nothing
    else. *)
Definition wallet_shape (E : Env) (s : pystr) : Prop :=
  exists ds,
    s = 80 :: ds /\ (7 <= length ds <= 12)%nat /\
    Forall (decimal_digit E) ds.

(** A string whose end is a wallet number, whatever comes before it. *)
Definition ends_with_wallet (E : Env) (s : pystr) : Prop :=
  exists before w, s = before ++ w /\ wallet_shape E w.

(** Modelled from the spec: [payeer/forms.py] ([MerchantForm]) is not among
    the sources.  The spec asks for a numeric amount and for recognised
    currency and language codes; a field that passes is kept as it was
    submitted and, as Django does, a field that fails is left out of
    [cleaned_data]. *)
Definition ascii_digit (c : Z) : bool := (48 <=? c) && (c <=? 57).

Definition all_digits (s : pystr) : bool :=
  str_truthy s && forallb ascii_digit s.

Definition is_numeric (s : pystr) : bool :=
  match split 46 s with
  | [whole] => all_digits whole
  | [whole; fraction] => all_digits whole && all_digits fraction
  | _ => false
  end.

Definition spec_field_valid (currencies languages : list pystr)
    (kv : pystr * pyval) : bool :=
  match snd kv with
  | PyStr s =>
      if str_eqb (fst kv) (py "amount") then is_numeric s
      else if str_eqb (fst kv) (py "currency") then existsb (str_eqb s) currencies
      else if str_eqb (fst kv) (py "language") then existsb (str_eqb s) languages
      else true
  | _ => false
  end.

Definition spec_MerchantForm (currencies languages : list pystr)
    (data : dict pyval) : dict pyval :=
  filter (spec_field_valid currencies languages) data.

(** A configuration to run the module on. *)
Definition sample_env : Env :=
  {| PAYEER := [(py "LANGUAGE", PyStr (py "en"))];
     PAYEER_ALLOWED_IPS :=
       [py "185.71.65.92"; py "185.71.65.189"; py "149.202.17.210"];
     LANGUAGE_RU := PyStr (py "ru");
     MerchantForm :=
       spec_MerchantForm [py "USD"; py "EUR"; py "RUB"] [py "ru"; py "en"];
     requests_post := fun _ _ =>
       inr (JDict [(py "auth_error", JStr (py "0"));
                   (py "errors", JList []);
                   (py "historyId", JInt 1915463)]);
     unicode_decimal := fun c => (1632 <=? c) && (c <=? 1641) |}.

Definition sample_api : PayeerApi :=
  {| _account := PyStr (py "P1000000");
     _api_id := PyStr (py "12345");
     _api_pass := PyStr (py "api-pass");
     _merchant_id := PyStr (py "987654");
     _merchant_secret_key := PyStr (py "secret") |}.

(** A callback as Payeer sends it for a paid order, from an allowed
    address, with the signature the service computes: the ten fields and
    the secret key, joined and hashed. *)
Definition sample_callback_fields : dict pystr :=
  [ (py "m_operation_id", py "1234567");
    (py "m_operation_ps", py "2609");
    (py "m_operation_date", py "21.12.2012 21:12");
    (py "m_operation_pay_date", py "21.12.2012 21:12");
    (py "m_shop", py "987654");
    (py "m_orderid", py "1001");
    (py "m_amount", py "10.00");
    (py "m_curr", py "USD");
    (py "m_desc", py "VGVzdCBvcmRlcg==");
    (py "m_status", py "success") ].

Definition sample_callback_sign : pystr :=
  match generate_signature
          (Some (map PyStr (dict_values sample_callback_fields)
                 ++ [_merchant_secret_key sample_api])) with
  | Return s => s
  | Raise _ => []
  end.

Definition sample_callback : HttpRequest :=
  {| META := [(py "REMOTE_ADDR", py "185.71.65.92")];
     POST := sample_callback_fields ++ [(py "m_sign", sample_callback_sign)] |}.

(** What [merchant] hands to the form: the five order fields, the language
    being the configured one when the caller gave [None]. *)
Definition submitted (E : Env)
    (order_id amount currency description language : pyval) : dict pyval :=
  [ (py "order_id", order_id);
    (py "amount", amount);
    (py "currency", currency);
    (py "description", description);
    (py "language",
      match language with
      | PyNone => dict_get_default (PAYEER E) (py "LANGUAGE") (LANGUAGE_RU E)
      | _ => language
      end) ].

(** The checkout parameters before the caller's extra ones are merged. *)
Definition checkout_params (mid oid amt cur m_desc m_sign : pystr) (lang : pyval)
    : dict pyval :=
  [ (py "m_shop", PyStr mid);
    (py "m_orderid", PyStr oid);
    (py "m_amount", PyStr amt);
    (py "m_curr", PyStr cur);
    (py "m_desc", PyStr m_desc);
    (py "m_sign", PyStr m_sign);
    (py "m_process", PyStr (py "send"));
    (py "lang", lang) ].

(** Keys and values that [urlencode] can encode: a [bytes] value as it
    is, any other value when [str(value)] is text. *)
Definition quotable (v : pyval) : Prop :=
  match v with
  | PyBytes data => Forall is_byte data
  | _ => is_text (py_str v)
  end.

Definition text_items (d : dict pyval) : Prop :=
  Forall (fun kv => is_text (fst kv) /\ quotable (snd kv)) d.

(** A JSON number greater than zero, as Python compares it with [0]
    ([True] counts as [1]). *)
Definition json_positive (v : json) : Prop :=
  match v with
  | JBool b => b = true
  | JInt n => 0 < n
  | JFloat x => PrimFloat.ltb PrimFloat.zero x = true
  | _ => False
  end.

(** A JSON number that is zero or negative ([False] counts as [0]). *)
Definition json_zero_or_negative (v : json) : Prop :=
  match v with
  | JBool b => b = false
  | JInt n => n <= 0
  | JFloat x =>
      PrimFloat.eqb x PrimFloat.zero = true \/
      PrimFloat.ltb x PrimFloat.zero = true
  | _ => False
  end.


(** Checks run over every integer below a bound. *)
Definition below (n : nat) : list Z := map Z.of_nat (seq 0 n).

Definition sextet_ok (i : Z) : bool :=
  match b64_index (b64_char i) with
  | Some j => (j =? i) && negb (b64_char i =? b64_pad)
              && (0 <=? b64_char i) && (b64_char i <? 128)
  | None => false
  end.

Definition is_sextet (i : Z) : bool := (0 <=? i) && (i <? 64).

Definition byte_ok (b : Z) : bool :=
  is_sextet (Z.shiftr b 2) && is_sextet (Z.land b 63)
  && is_sextet (Z.shiftl (Z.land b 3) 4)
  && is_sextet (Z.shiftl (Z.land b 15) 2)
  && (Z.shiftr (Z.shiftl (Z.land b 3) 4) 4 =? Z.land b 3)
  && (Z.land (Z.shiftl (Z.land b 3) 4) 15 =? 0)
  && (Z.shiftr (Z.shiftl (Z.land b 15) 2) 2 =? Z.land b 15).

Definition pair_ok (a b : Z) : bool :=
  is_sextet (Z.lor (Z.shiftl (Z.land a 3) 4) (Z.shiftr b 4))
  && (Z.shiftr (Z.lor (Z.shiftl (Z.land a 3) 4) (Z.shiftr b 4)) 4 =? Z.land a 3)
  && (Z.land (Z.lor (Z.shiftl (Z.land a 3) 4) (Z.shiftr b 4)) 15 =? Z.shiftr b 4)
  && is_sextet (Z.lor (Z.shiftl (Z.land a 15) 2) (Z.shiftr b 6))
  && (Z.shiftr (Z.lor (Z.shiftl (Z.land a 15) 2) (Z.shiftr b 6)) 2 =? Z.land a 15)
  && (Z.land (Z.lor (Z.shiftl (Z.land a 15) 2) (Z.shiftr b 6)) 3 =? Z.shiftr b 6).

(** The characters [quote_plus] can produce: the unreserved ones, [+]
    for a space and [%] opening an escape. *)
Definition quoted_char (c : Z) : bool :=
  is_always_safe c || (c =? 43) || (c =? 37).

(** How many times [c] occurs in [s]. *)
Definition count (c : Z) (s : pystr) : nat := length (filter (Z.eqb c) s).

(** A value that is not a [str]. *)
Definition not_str (v : pyval) : Prop :=
  match v with
  | PyStr _ => False
  | _ => True
  end.

(* ================================================================== *)
(** * Properties *)

(** ** Checking a property on every integer below a bound *)

Lemma below_In (n : nat) (x : Z) : 0 <= x < Z.of_nat n -> In x (below n).
Proof.
  intros Hx. unfold below. apply in_map_iff.
  exists (Z.to_nat x). split; [lia|]. apply in_seq. lia.
Qed.

Lemma forallb_below (P : Z -> bool) (n : nat) :
  forallb P (below n) = true ->
  forall x, 0 <= x < Z.of_nat n -> P x = true.
Proof.
  intros H x Hx. rewrite forallb_forall in H. apply H, below_In, Hx.
Qed.

Lemma forallb_below2 (P : Z -> Z -> bool) (n m : nat) :
  forallb (fun x => forallb (P x) (below m)) (below n) = true ->
  forall x y, 0 <= x < Z.of_nat n -> 0 <= y < Z.of_nat m -> P x y = true.
Proof.
  intros H x y Hx Hy.
  apply (forallb_below (P x) m); [|exact Hy].
  apply (forallb_below (fun x => forallb (P x) (below m)) n H x Hx).
Qed.

(** ** Strings *)

Lemma str_eqb_eq (a b : pystr) : str_eqb a b = true <-> a = b.
Proof.
  revert b. induction a as [|x a IH]; intros [|y b]; simpl;
    try (split; [discriminate|discriminate]); try tauto.
  rewrite andb_true_iff, Z.eqb_eq, IH. split.
  - intros [-> ->]. reflexivity.
  - intros H. injection H as -> ->. split; reflexivity.
Qed.

Lemma str_eqb_refl (a : pystr) : str_eqb a a = true.
Proof. apply str_eqb_eq. reflexivity. Qed.

Lemma str_eqb_neq (a b : pystr) : str_eqb a b = false <-> a <> b.
Proof.
  split.
  - intros H ->. rewrite str_eqb_refl in H. discriminate.
  - intros H. destruct (str_eqb a b) eqn:Heq; [|reflexivity].
    apply str_eqb_eq in Heq. contradiction.
Qed.

Lemma join_text (sep : pystr) (items : list pystr) :
  is_text sep -> Forall is_text items -> is_text (join sep items).
Proof.
  intros Hsep H. induction H as [|x rest Hx Hrest IH]; simpl.
  - constructor.
  - destruct rest as [|y rest']; [exact Hx|].
    apply Forall_app. split; [exact Hx|].
    apply Forall_app. split; [exact Hsep|exact IH].
Qed.

(** ** UTF-8 encoding of text *)

Lemma lor_low (hi : Z) (n : nat) :
  forallb (fun y => Z.lor hi y =? hi + y) (below n) = true ->
  forall y, 0 <= y < Z.of_nat n -> Z.lor hi y = hi + y.
Proof.
  intros H y Hy. apply Z.eqb_eq.
  apply (forallb_below (fun y => Z.lor hi y =? hi + y) n H y Hy).
Qed.

Lemma land63_range (x : Z) : 0 <= x -> 0 <= Z.land x 63 < 64.
Proof.
  intros Hx. change 63 with (Z.ones 6). rewrite Z.land_ones by lia.
  apply Z.mod_pos_bound. reflexivity.
Qed.

Lemma shiftr_range (x k lo hi : Z) :
  0 <= k -> lo * 2 ^ k <= x < hi * 2 ^ k -> lo <= Z.shiftr x k < hi.
Proof.
  intros Hk [H1 H2]. rewrite Z.shiftr_div_pow2 by exact Hk.
  assert (Hp : 0 < 2 ^ k) by (apply Z.pow_pos_nonneg; lia).
  split.
  - apply Z.div_le_lower_bound; lia.
  - apply Z.div_lt_upper_bound; lia.
Qed.

Lemma cont_byte (y : Z) : 0 <= y < 64 -> Z.lor 128 y = 128 + y.
Proof. apply (lor_low 128 64). vm_compute. reflexivity. Qed.

Lemma utf8_encode_cp_bytes (c : Z) :
  is_scalar c ->
  exists bs, utf8_encode_cp c = Some bs /\ Forall is_byte bs.
Proof.
  intros Hc. unfold utf8_encode_cp.
  assert (H0 : 0 <= c) by (destruct Hc; lia).
  assert (Hl := land63_range c H0).
  assert (Hl6 := land63_range (Z.shiftr c 6) (proj2 (Z.shiftr_nonneg c 6) H0)).
  assert (Hl12 := land63_range (Z.shiftr c 12) (proj2 (Z.shiftr_nonneg c 12) H0)).
  destruct (c <? 0) eqn:E0; [lia|].
  destruct (c <? 128) eqn:E1.
  { eexists; split; [reflexivity|]. repeat constructor; unfold is_byte; lia. }
  destruct (c <? 2048) eqn:E2.
  { eexists; split; [reflexivity|].
    assert (Hs : 2 <= Z.shiftr c 6 < 32) by (apply shiftr_range; lia).
    rewrite (lor_low 192 32) by (try (vm_compute; reflexivity); lia).
    rewrite cont_byte by lia.
    repeat constructor; unfold is_byte; lia. }
  assert (H3 : c < 65536 ->
    Forall is_byte [Z.lor 224 (Z.shiftr c 12);
                    Z.lor 128 (Z.land (Z.shiftr c 6) 63);
                    Z.lor 128 (Z.land c 63)]).
  { intros Hlt.
    assert (Hs : 0 <= Z.shiftr c 12 < 16) by (apply shiftr_range; lia).
    rewrite (lor_low 224 16) by (try (vm_compute; reflexivity); lia).
    rewrite !cont_byte by lia.
    repeat constructor; unfold is_byte; lia. }
  destruct (c <? 55296) eqn:E3.
  { eexists; split; [reflexivity|]. apply H3. lia. }
  destruct (c <? 57344) eqn:E4; [destruct Hc; lia|].
  destruct (c <? 65536) eqn:E5.
  { eexists; split; [reflexivity|]. apply H3. lia. }
  destruct (c <? 1114112) eqn:E6; [|destruct Hc; lia].
  eexists; split; [reflexivity|].
  assert (Hl18 : 0 <= Z.shiftr c 18 < 8) by (apply shiftr_range; lia).
  rewrite (lor_low 240 8) by (try (vm_compute; reflexivity); lia).
  rewrite !cont_byte by lia.
  repeat constructor; unfold is_byte; lia.
Qed.

Lemma utf8_encode_text (s : pystr) :
  is_text s -> exists bs, utf8_encode s = Some bs /\ Forall is_byte bs.
Proof.
  intros H. induction H as [|c rest Hc Hrest IH]; simpl.
  - exists []. split; [reflexivity|constructor].
  - destruct (utf8_encode_cp_bytes c Hc) as (b & -> & Hb).
    destruct IH as (bs & -> & Hbs).
    exists (b ++ bs). split; [reflexivity|]. apply Forall_app. tauto.
Qed.

(** ** UTF-8 decoding undoes encoding *)

Lemma Some_inj {A} (x y : A) : Some x = Some y -> x = y.
Proof. congruence. Qed.

Lemma split_bits (x k : Z) :
  0 <= k -> Z.lor (Z.shiftl (Z.shiftr x k) k) (Z.land x (Z.ones k)) = x.
Proof.
  intros Hk. rewrite <- Z.ldiff_ones_r by exact Hk. apply Z.lor_ldiff_and.
Qed.

Lemma recombine2 (c : Z) :
  Z.lor (Z.shiftl (Z.shiftr c 6) 6) (Z.land c 63) = c.
Proof. apply (split_bits c 6). lia. Qed.

Lemma recombine3 (c : Z) :
  Z.lor (Z.shiftl (Z.shiftr c 12) 12)
    (Z.lor (Z.shiftl (Z.land (Z.shiftr c 6) 63) 6) (Z.land c 63)) = c.
Proof.
  rewrite Z.lor_assoc.
  replace (Z.shiftl (Z.shiftr c 12) 12)
    with (Z.shiftl (Z.shiftl (Z.shiftr c 12) 6) 6)
    by (rewrite Z.shiftl_shiftl by lia; reflexivity).
  rewrite <- Z.shiftl_lor.
  replace (Z.shiftr c 12) with (Z.shiftr (Z.shiftr c 6) 6)
    by (rewrite Z.shiftr_shiftr by lia; reflexivity).
  rewrite recombine2. apply recombine2.
Qed.

Lemma recombine4 (c : Z) :
  Z.lor (Z.shiftl (Z.shiftr c 18) 18)
    (Z.lor (Z.shiftl (Z.land (Z.shiftr c 12) 63) 12)
       (Z.lor (Z.shiftl (Z.land (Z.shiftr c 6) 63) 6) (Z.land c 63))) = c.
Proof.
  rewrite !Z.lor_assoc.
  replace (Z.shiftl (Z.shiftr c 18) 18)
    with (Z.shiftl (Z.shiftl (Z.shiftr c 18) 6) 12)
    by (rewrite Z.shiftl_shiftl by lia; reflexivity).
  rewrite <- Z.shiftl_lor.
  replace (Z.shiftr c 18) with (Z.shiftr (Z.shiftr c 12) 6)
    by (rewrite Z.shiftr_shiftr by lia; reflexivity).
  rewrite recombine2. rewrite <- Z.lor_assoc. apply recombine3.
Qed.

Lemma split2 (x : Z) : Z.lor (Z.shiftl (Z.shiftr x 2) 2) (Z.land x 3) = x.
Proof. apply (split_bits x 2). lia. Qed.

Lemma split4 (x : Z) : Z.lor (Z.shiftl (Z.shiftr x 4) 4) (Z.land x 15) = x.
Proof. apply (split_bits x 4). lia. Qed.

Lemma land_lor_low (hi mask : Z) (n : nat) :
  forallb (fun y => Z.land (Z.lor hi y) mask =? y) (below n) = true ->
  forall y, 0 <= y < Z.of_nat n -> Z.land (Z.lor hi y) mask = y.
Proof.
  intros H y Hy. apply Z.eqb_eq.
  apply (forallb_below (fun y => Z.land (Z.lor hi y) mask =? y) n H y Hy).
Qed.

Lemma cont_payload (y : Z) : 0 <= y < 64 -> Z.land (Z.lor 128 y) 63 = y.
Proof. apply (land_lor_low 128 63 64). vm_compute. reflexivity. Qed.

Ltac decide_cmp :=
  repeat match goal with
    | |- context [?a <=? ?b] => destruct (Z.leb_spec a b); try lia
    | |- context [?a <? ?b] => destruct (Z.ltb_spec a b); try lia
    end.

Lemma is_cont_byte (y : Z) : 0 <= y < 64 -> is_cont (Z.lor 128 y) = true.
Proof.
  intros Hy. rewrite cont_byte by exact Hy. unfold is_cont.
  decide_cmp; try reflexivity.
Qed.

Lemma utf8_decode_1 (b0 : Z) (r : pybytes) :
  0 <= b0 < 128 ->
  utf8_decode (b0 :: r) = option_map (cons b0) (utf8_decode r).
Proof.
  intros H. cbn [utf8_decode].
  replace ((0 <=? b0) && (b0 <? 128)) with true; [reflexivity|].
  symmetry. apply andb_true_iff. rewrite Z.leb_le, Z.ltb_lt. exact H.
Qed.

Lemma between_true (lo hi x : Z) :
  lo <= x < hi -> (lo <=? x) && (x <? hi) = true.
Proof. intros H. apply andb_true_iff. rewrite Z.leb_le, Z.ltb_lt. exact H. Qed.

Lemma between_false (lo hi x : Z) :
  x < lo \/ hi <= x -> (lo <=? x) && (x <? hi) = false.
Proof.
  intros H. apply andb_false_iff. rewrite Z.leb_gt, Z.ltb_ge. tauto.
Qed.

Lemma utf8_decode_2 (b0 b1 : Z) (r : pybytes) :
  194 <= b0 < 224 -> is_cont b1 = true ->
  utf8_decode (b0 :: b1 :: r) =
  option_map (cons (Z.lor (Z.shiftl (Z.land b0 31) 6) (Z.land b1 63)))
             (utf8_decode r).
Proof.
  intros H0 H1. cbn [utf8_decode].
  rewrite (between_false 0 128 b0) by lia.
  rewrite (between_true 194 224 b0) by lia.
  rewrite H1. reflexivity.
Qed.

Lemma utf8_decode_3 (b0 b1 b2 c : Z) (r : pybytes) :
  224 <= b0 < 240 -> is_cont b1 = true -> is_cont b2 = true ->
  Z.lor (Z.shiftl (Z.land b0 15) 12)
    (Z.lor (Z.shiftl (Z.land b1 63) 6) (Z.land b2 63)) = c ->
  2048 <= c -> c < 55296 \/ 57344 <= c ->
  utf8_decode (b0 :: b1 :: b2 :: r) = option_map (cons c) (utf8_decode r).
Proof.
  intros H0 H1 H2 Hc Hlo Hsur. cbn [utf8_decode].
  rewrite (between_false 0 128 b0) by lia.
  rewrite (between_false 194 224 b0) by lia.
  rewrite (between_true 224 240 b0) by lia.
  cbv zeta. rewrite Hc, H1, H2.
  rewrite (between_false 55296 57344 c) by lia.
  replace (2048 <=? c) with true by (symmetry; apply Z.leb_le; exact Hlo).
  reflexivity.
Qed.

Lemma utf8_decode_4 (b0 b1 b2 b3 c : Z) (r : pybytes) :
  240 <= b0 < 245 ->
  is_cont b1 = true -> is_cont b2 = true -> is_cont b3 = true ->
  Z.lor (Z.shiftl (Z.land b0 7) 18)
    (Z.lor (Z.shiftl (Z.land b1 63) 12)
       (Z.lor (Z.shiftl (Z.land b2 63) 6) (Z.land b3 63))) = c ->
  65536 <= c < 1114112 ->
  utf8_decode (b0 :: b1 :: b2 :: b3 :: r) = option_map (cons c) (utf8_decode r).
Proof.
  intros H0 H1 H2 H3 Hc Hr. cbn [utf8_decode].
  rewrite (between_false 0 128 b0) by lia.
  rewrite (between_false 194 224 b0) by lia.
  rewrite (between_false 224 240 b0) by lia.
  rewrite (between_true 240 245 b0) by lia.
  cbv zeta. rewrite Hc, H1, H2, H3.
  rewrite <- andb_assoc. rewrite (between_true 65536 1114112 c) by lia.
  reflexivity.
Qed.

Lemma lead2 (y : Z) :
  2 <= y < 32 -> 194 <= Z.lor 192 y < 224 /\ Z.land (Z.lor 192 y) 31 = y.
Proof.
  intros H. split.
  - rewrite (lor_low 192 32) by (try (vm_compute; reflexivity); lia). lia.
  - apply (land_lor_low 192 31 32); [vm_compute; reflexivity|lia].
Qed.

Lemma lead3 (y : Z) :
  0 <= y < 16 -> 224 <= Z.lor 224 y < 240 /\ Z.land (Z.lor 224 y) 15 = y.
Proof.
  intros H. split.
  - rewrite (lor_low 224 16) by (try (vm_compute; reflexivity); lia). lia.
  - apply (land_lor_low 224 15 16); [vm_compute; reflexivity|lia].
Qed.

Lemma lead4 (y : Z) :
  0 <= y < 5 -> 240 <= Z.lor 240 y < 245 /\ Z.land (Z.lor 240 y) 7 = y.
Proof.
  intros H. split.
  - rewrite (lor_low 240 8) by (try (vm_compute; reflexivity); lia). lia.
  - apply (land_lor_low 240 7 8); [vm_compute; reflexivity|lia].
Qed.

Lemma utf8_decode_encode_3 (c : Z) (rest : pybytes) :
  2048 <= c < 65536 -> c < 55296 \/ 57344 <= c ->
  utf8_decode (Z.lor 224 (Z.shiftr c 12)
               :: Z.lor 128 (Z.land (Z.shiftr c 6) 63)
               :: Z.lor 128 (Z.land c 63) :: rest)
  = option_map (cons c) (utf8_decode rest).
Proof.
  intros Hr Hsur.
  assert (Hl := land63_range c ltac:(lia)).
  assert (Hl6 := land63_range (Z.shiftr c 6)
                   (proj2 (Z.shiftr_nonneg c 6) ltac:(lia))).
  assert (Hs : 0 <= Z.shiftr c 12 < 16) by (apply shiftr_range; lia).
  destruct (lead3 _ Hs) as [L1 L2].
  apply utf8_decode_3; try (apply is_cont_byte; assumption); try lia.
  rewrite L2, !cont_payload by assumption. apply recombine3.
Qed.

Lemma utf8_decode_encode_cp (c : Z) (b rest : pybytes) :
  is_scalar c ->
  utf8_encode_cp c = Some b ->
  utf8_decode (b ++ rest) = option_map (cons c) (utf8_decode rest).
Proof.
  intros Hc. unfold utf8_encode_cp.
  assert (H0 : 0 <= c) by (destruct Hc; lia).
  assert (Hl := land63_range c H0).
  assert (Hl6 := land63_range (Z.shiftr c 6) (proj2 (Z.shiftr_nonneg c 6) H0)).
  assert (Hl12 := land63_range (Z.shiftr c 12) (proj2 (Z.shiftr_nonneg c 12) H0)).
  destruct (c <? 0) eqn:E0; [lia|].
  destruct (c <? 128) eqn:E1.
  { intros H; apply Some_inj in H; subst b.
    apply (utf8_decode_1 c rest). lia. }
  destruct (c <? 2048) eqn:E2.
  { intros H; apply Some_inj in H; subst b.
    assert (Hs : 2 <= Z.shiftr c 6 < 32) by (apply shiftr_range; lia).
    destruct (lead2 _ Hs) as [L1 L2].
    change (utf8_decode (Z.lor 192 (Z.shiftr c 6)
                         :: Z.lor 128 (Z.land c 63) :: rest)
            = option_map (cons c) (utf8_decode rest)).
    rewrite utf8_decode_2 by (try (apply is_cont_byte); assumption).
    rewrite L2, cont_payload, recombine2 by assumption. reflexivity. }
  destruct (c <? 55296) eqn:E3.
  { intros H; apply Some_inj in H; subst b.
    apply (utf8_decode_encode_3 c rest); lia. }
  destruct (c <? 57344) eqn:E4; [discriminate|].
  destruct (c <? 65536) eqn:E5.
  { intros H; apply Some_inj in H; subst b.
    apply (utf8_decode_encode_3 c rest); lia. }
  destruct (c <? 1114112) eqn:E6; [|discriminate].
  intros H; apply Some_inj in H; subst b.
  assert (Hs : 0 <= Z.shiftr c 18 < 5) by (apply shiftr_range; lia).
  destruct (lead4 _ Hs) as [L1 L2].
  apply (utf8_decode_4 _ _ _ _ c rest); try (apply is_cont_byte; assumption); try lia.
  rewrite L2, !cont_payload by assumption. apply recombine4.
Qed.

Lemma utf8_decode_encode (s : pystr) (bs : pybytes) :
  is_text s -> utf8_encode s = Some bs -> utf8_decode bs = Some s.
Proof.
  intros H. revert bs. induction H as [|c rest Hc Hrest IH]; simpl; intros bs.
  - intros E; injection E as <-. reflexivity.
  - destruct (utf8_encode_cp c) as [b|] eqn:Eb; [|discriminate].
    destruct (utf8_encode rest) as [bs'|] eqn:Er; [|discriminate].
    intros E; injection E as <-.
    rewrite (utf8_decode_encode_cp c b bs' Hc Eb), (IH bs' eq_refl).
    reflexivity.
Qed.

Lemma utf8_decode_ascii (l : pybytes) :
  Forall (fun c => 0 <= c < 128) l -> utf8_decode l = Some l.
Proof.
  intros H. induction H as [|c rest Hc Hrest IH]; [reflexivity|].
  rewrite utf8_decode_1 by exact Hc. rewrite IH. reflexivity.
Qed.

(** ** Base64 decoding undoes encoding *)

Lemma list_ind3 {A} (P : list A -> Prop) :
  P [] -> (forall a, P [a]) -> (forall a b, P [a; b]) ->
  (forall a b c l, P l -> P (a :: b :: c :: l)) ->
  forall l, P l.
Proof.
  intros H0 H1 H2 H3. fix IH 1.
  intros [|a [|b [|c l]]]; [exact H0|apply H1|apply H2|apply H3, IH].
Qed.

Lemma sextet_facts (i : Z) :
  0 <= i < 64 ->
  b64_index (b64_char i) = Some i /\
  (b64_char i =? b64_pad) = false /\
  0 <= b64_char i < 128.
Proof.
  intros Hi.
  assert (H : sextet_ok i = true).
  { apply (forallb_below sextet_ok 64); [vm_compute; reflexivity|exact Hi]. }
  unfold sextet_ok in H. destruct (b64_index (b64_char i)) as [j|]; [|discriminate].
  rewrite !andb_true_iff, negb_true_iff, Z.eqb_eq, Z.leb_le, Z.ltb_lt in H.
  destruct H as [[[-> Hp] Hlo] Hhi]. auto.
Qed.

Lemma is_sextet_range (i : Z) : is_sextet i = true -> 0 <= i < 64.
Proof. unfold is_sextet. rewrite andb_true_iff, Z.leb_le, Z.ltb_lt. tauto. Qed.

Lemma byte_facts (b : Z) :
  is_byte b ->
  0 <= Z.shiftr b 2 < 64 /\ 0 <= Z.land b 63 < 64 /\
  0 <= Z.shiftl (Z.land b 3) 4 < 64 /\
  0 <= Z.shiftl (Z.land b 15) 2 < 64 /\
  Z.shiftr (Z.shiftl (Z.land b 3) 4) 4 = Z.land b 3 /\
  Z.land (Z.shiftl (Z.land b 3) 4) 15 = 0 /\
  Z.shiftr (Z.shiftl (Z.land b 15) 2) 2 = Z.land b 15.
Proof.
  intros Hb.
  assert (H : byte_ok b = true).
  { apply (forallb_below byte_ok 256); [vm_compute; reflexivity|exact Hb]. }
  unfold byte_ok in H. rewrite !andb_true_iff, !Z.eqb_eq in H.
  destruct H as [[[[[[H1 H2] H3] H4] H5] H6] H7].
  repeat split; try (apply is_sextet_range; assumption); assumption.
Qed.

Lemma pair_facts (a b : Z) :
  is_byte a -> is_byte b ->
  let i1 := Z.lor (Z.shiftl (Z.land a 3) 4) (Z.shiftr b 4) in
  let i2 := Z.lor (Z.shiftl (Z.land a 15) 2) (Z.shiftr b 6) in
  0 <= i1 < 64 /\ Z.shiftr i1 4 = Z.land a 3 /\ Z.land i1 15 = Z.shiftr b 4 /\
  0 <= i2 < 64 /\ Z.shiftr i2 2 = Z.land a 15 /\ Z.land i2 3 = Z.shiftr b 6.
Proof.
  intros Ha Hb.
  assert (H : pair_ok a b = true).
  { apply (forallb_below2 pair_ok 256 256); [vm_compute; reflexivity| |]; assumption. }
  unfold pair_ok in H. rewrite !andb_true_iff, !Z.eqb_eq in H.
  destruct H as [[[[[H1 H2] H3] H4] H5] H6].
  cbv zeta.
  repeat split; try (apply is_sextet_range; assumption); assumption.
Qed.

Lemma b64_group (b0 b1 b2 : Z) :
  is_byte b0 -> is_byte b1 -> is_byte b2 ->
  let i0 := Z.shiftr b0 2 in
  let i1 := Z.lor (Z.shiftl (Z.land b0 3) 4) (Z.shiftr b1 4) in
  let i2 := Z.lor (Z.shiftl (Z.land b1 15) 2) (Z.shiftr b2 6) in
  let i3 := Z.land b2 63 in
  b64_byte0 i0 i1 = b0 /\ b64_byte1 i1 i2 = b1 /\ b64_byte2 i2 i3 = b2.
Proof.
  intros H0 H1 H2. cbv zeta.
  destruct (pair_facts b0 b1 H0 H1) as (_ & E1 & E2 & _).
  destruct (pair_facts b1 b2 H1 H2) as (_ & _ & _ & _ & E3 & E4).
  unfold b64_byte0, b64_byte1, b64_byte2.
  rewrite E1, E2, E3, E4.
  split; [apply split2|].
  split; [apply split4|apply recombine2].
Qed.

Lemma b64encode_ascii (bs : pybytes) :
  Forall is_byte bs -> Forall (fun c => 0 <= c < 128) (b64encode bs).
Proof.
  induction bs as [|b0|b0 b1|b0 b1 b2 rest IH] using list_ind3; intros H.
  - constructor.
  - inversion H as [|? ? H0 _]; subst.
    destruct (byte_facts b0 H0) as (A1 & _ & A3 & _).
    cbn [b64encode].
    repeat constructor; try (apply sextet_facts; assumption);
      unfold b64_pad; lia.
  - inversion H as [|? ? H0 H']; subst. inversion H' as [|? ? H1 _]; subst.
    destruct (byte_facts b0 H0) as (A1 & _).
    destruct (byte_facts b1 H1) as (_ & _ & _ & A4 & _).
    destruct (pair_facts b0 b1 H0 H1) as (P1 & _).
    cbn [b64encode].
    repeat constructor; try (apply sextet_facts; assumption);
      unfold b64_pad; lia.
  - inversion H as [|? ? H0 H']; subst. inversion H' as [|? ? H1 H'']; subst.
    inversion H'' as [|? ? H2 Hrest]; subst.
    destruct (byte_facts b0 H0) as (A1 & _).
    destruct (byte_facts b2 H2) as (_ & A2 & _).
    destruct (pair_facts b0 b1 H0 H1) as (P1 & _).
    destruct (pair_facts b1 b2 H1 H2) as (_ & _ & _ & P2 & _).
    cbn [b64encode].
    repeat (apply Forall_cons; [apply sextet_facts; assumption|]).
    apply IH, Hrest.
Qed.

Lemma b64decode_encode (bs : pybytes) :
  Forall is_byte bs -> b64decode (b64encode bs) = Some bs.
Proof.
  induction bs as [|b0|b0 b1|b0 b1 b2 rest IH] using list_ind3; intros H.
  - reflexivity.
  - inversion H as [|? ? H0 _]; subst.
    destruct (byte_facts b0 H0) as (A1 & _ & A3 & _ & A5 & _).
    destruct (sextet_facts _ A1) as (I0 & _).
    destruct (sextet_facts _ A3) as (I1 & _).
    cbn [b64encode b64decode]. rewrite I0, I1.
    rewrite Z.eqb_refl. cbn [andb].
    unfold b64_byte0. rewrite A5.
    rewrite split2. reflexivity.
  - inversion H as [|? ? H0 H']; subst. inversion H' as [|? ? H1 _]; subst.
    destruct (byte_facts b0 H0) as (A1 & _).
    destruct (byte_facts b1 H1) as (_ & _ & _ & A4 & _ & _ & A7).
    destruct (pair_facts b0 b1 H0 H1) as (P1 & P2 & P3 & _).
    destruct (sextet_facts _ A1) as (I0 & _).
    destruct (sextet_facts _ P1) as (I1 & _).
    destruct (sextet_facts _ A4) as (I2 & N2 & _).
    cbn [b64encode b64decode]. rewrite I0, I1, I2, N2.
    rewrite Z.eqb_refl. cbn [andb].
    unfold b64_byte0, b64_byte1. rewrite P2, P3, A7.
    rewrite split2, split4. reflexivity.
  - inversion H as [|? ? H0 H']; subst. inversion H' as [|? ? H1 H'']; subst.
    inversion H'' as [|? ? H2 Hrest]; subst.
    destruct (byte_facts b0 H0) as (A1 & _).
    destruct (byte_facts b2 H2) as (_ & A2 & _).
    destruct (pair_facts b0 b1 H0 H1) as (P1 & _).
    destruct (pair_facts b1 b2 H1 H2) as (_ & _ & _ & P2 & _).
    destruct (sextet_facts _ A1) as (I0 & _).
    destruct (sextet_facts _ P1) as (I1 & _).
    destruct (sextet_facts _ P2) as (I2 & N2 & _).
    destruct (sextet_facts _ A2) as (I3 & N3 & _).
    destruct (b64_group b0 b1 b2 H0 H1 H2) as (G0 & G1 & G2).
    cbn [b64encode b64decode]. rewrite I0, I1, I2, I3, N2, N3.
    cbn [andb]. rewrite (IH Hrest). cbn [option_map].
    rewrite G0, G1, G2. reflexivity.
Qed.

(** ** The signature *)

Lemma is_textb_ok (s : pystr) : is_textb s = true -> is_text s.
Proof.
  unfold is_textb, is_text. rewrite forallb_forall, Forall_forall.
  intros H c Hc. specialize (H c Hc). unfold is_scalarb in H.
  rewrite orb_true_iff, !andb_true_iff, !Z.leb_le, !Z.ltb_lt in H.
  exact H.
Qed.

Lemma all_textb_ok (l : list pystr) :
  forallb is_textb l = true -> Forall is_text l.
Proof.
  rewrite forallb_forall, Forall_forall.
  intros H s Hs. apply is_textb_ok, H, Hs.
Qed.

Lemma all_str_map (fields : list pystr) :
  all_str (map PyStr fields) = Some fields.
Proof.
  induction fields as [|f rest IH]; [reflexivity|].
  cbn [map all_str]. rewrite IH. reflexivity.
Qed.

Lemma upper_hex_digit (x : Z) :
  0 <= x < 16 -> is_upper_hex (upper_char (SHA256.hex_digit x)).
Proof.
  intros Hx. unfold SHA256.hex_digit, upper_char, is_upper_hex.
  destruct (Z.ltb_spec x 10).
  - replace ((97 <=? 48 + x) && (48 + x <=? 122)) with false; [lia|].
    symmetry. apply andb_false_iff. left. apply Z.leb_gt. lia.
  - replace ((97 <=? 87 + x) && (87 + x <=? 122)) with true; [lia|].
    symmetry. apply andb_true_iff. rewrite !Z.leb_le. lia.
Qed.

Lemma upper_hex8 (w : Z) : Forall is_upper_hex (upper (SHA256.hex8 w)).
Proof.
  unfold upper, SHA256.hex8. rewrite map_map. apply Forall_map.
  apply Forall_forall. intros i _.
  apply upper_hex_digit, Z.mod_pos_bound. reflexivity.
Qed.

Lemma hexdigest_length (msg : pybytes) :
  length (upper (SHA256.hexdigest msg)) = 64%nat.
Proof.
  unfold upper, SHA256.hexdigest. rewrite length_map, !length_app.
  unfold SHA256.hex8. rewrite !length_map. reflexivity.
Qed.

Lemma hexdigest_upper_hex (msg : pybytes) :
  Forall is_upper_hex (upper (SHA256.hexdigest msg)).
Proof.
  unfold SHA256.hexdigest, upper. rewrite !map_app.
  repeat (apply Forall_app; split); apply upper_hex8.
Qed.

Lemma generate_signature_fields (fields : list pystr) (bs : pybytes) :
  utf8_encode (join (py ":") fields) = Some bs ->
  generate_signature (Some (map PyStr fields))
  = Return (upper (SHA256.hexdigest bs)).
Proof.
  intros H. unfold generate_signature. rewrite all_str_map, H. reflexivity.
Qed.

Lemma generate_signature_sha256_fields (fields : list pystr) :
  Forall is_text fields ->
  exists sig,
    generate_signature (Some (map PyStr fields)) = Return sig /\ is_text sig.
Proof.
  intros Hf.
  assert (Hsep : is_text (py ":")) by (apply is_textb_ok; reflexivity).
  destruct (utf8_encode_text _ (join_text _ _ Hsep Hf)) as (bs & Hbs & _).
  exists (upper (SHA256.hexdigest bs)).
  split; [apply generate_signature_fields, Hbs|].
  apply Forall_impl with (P := is_upper_hex); [|apply hexdigest_upper_hex].
  intros c Hc. left. unfold is_upper_hex in Hc. lia.
Qed.

(** C1. On any ordered sequence of text fields, [generate_signature]
    returns the SHA-256 digest of the UTF-8 bytes of the fields joined by
    a colon, written as 64 uppercase hexadecimal characters; equal inputs
    give equal signatures, and two orderings of the same fields exist whose
    signatures differ.  The digests of the standard test messages (the
    empty one, ["abc"], the 56-byte two-block message, 64 times ["a"]) and
    of joined and multi-byte fields are the published ones. *)
Theorem generate_signature_sha256_hex (fields : list pystr) :
  Forall is_text fields ->
  (exists bs,
    utf8_encode (join (py ":") fields) = Some bs /\
    generate_signature (Some (map PyStr fields))
      = Return (upper (SHA256.hexdigest bs)) /\
    length (upper (SHA256.hexdigest bs)) = 64%nat /\
    Forall is_upper_hex (upper (SHA256.hexdigest bs))) /\
  (forall again, again = fields ->
     generate_signature (Some (map PyStr again))
     = generate_signature (Some (map PyStr fields))) /\
  (generate_signature (Some [PyStr (py "a"); PyStr (py "b")])
     = Return (py "6783A31EABF68CCC0660F935C0826282BDD2241F3A80A9F2D10D59AEA9EBB5D8") /\
   generate_signature (Some [PyStr (py "b"); PyStr (py "a")])
     = Return (py "89B361784EA192092F875A7DFB97F85DEA5D70B23BC812DF1C87EB53571CBF30")) /\
  (generate_signature (Some [])
     = Return (py "E3B0C44298FC1C149AFBF4C8996FB92427AE41E4649B934CA495991B7852B855") /\
   generate_signature (Some [PyStr (py "abc")])
     = Return (py "BA7816BF8F01CFEA414140DE5DAE2223B00361A396177A9CB410FF61F20015AD") /\
   generate_signature
     (Some [PyStr (py "abcdbcdecdefdefgefghfghighijhijkijkljklmklmnlmnomnopnopq")])
     = Return (py "248D6A61D20638B8E5C026930C3E6039A33CE45964FF2167F6ECEDD419DB06C1") /\
   generate_signature
     (Some [PyStr (py "aaaaaaaaaaaaaaaaaaaaaaaaaaaaaaaaaaaaaaaaaaaaaaaaaaaaaaaaaaaaaaaa")])
     = Return (py "FFE054FE7AE0CB6DC65C3AF9B61D5209F439851DB43D0BA5997337DF154668EB") /\
   generate_signature (Some [PyStr [233]; PyStr [8364]])
     = Return (py "C3B844174621E8C85F89D53A46573A42A6CC5F062523C54364CFB2341C64FFD5") /\
   generate_signature
     (Some [PyStr (py "987654"); PyStr (py "1001"); PyStr (py "10.00");
            PyStr (py "USD"); PyStr (py "VGVzdCBvcmRlcg=="); PyStr (py "secret")])
     = Return (py "E63CF59ECD28A83127C7CF455E7E385B5C0E46C67C24821B19872D082EA15F8E")).
Proof.
  intros Hf.
  assert (Hsep : is_text (py ":")) by (apply is_textb_ok; reflexivity).
  destruct (utf8_encode_text _ (join_text _ _ Hsep Hf)) as (bs & Hbs & _).
  split.
  { exists bs. split; [exact Hbs|].
    split; [apply generate_signature_fields, Hbs|].
    split; [apply hexdigest_length|apply hexdigest_upper_hex]. }
  split; [intros again ->; reflexivity|].
  split; repeat split; vm_compute; reflexivity.
Qed.

Lemma generate_signature_sha256_hex_witness :
  exists bs,
    utf8_encode (join (py ":") [py "1001"; py "10.00"; py "USD"]) = Some bs /\
    generate_signature (Some (map PyStr [py "1001"; py "10.00"; py "USD"]))
      = Return (upper (SHA256.hexdigest bs)) /\
    length (upper (SHA256.hexdigest bs)) = 64%nat /\
    Forall is_upper_hex (upper (SHA256.hexdigest bs)).
Proof.
  apply (generate_signature_sha256_hex [py "1001"; py "10.00"; py "USD"]).
  apply all_textb_ok. reflexivity.
Defined.

(** ** The description *)

Lemma generate_description_text (s : pystr) (bs : pybytes) :
  utf8_encode s = Some bs -> Forall is_byte bs ->
  generate_description (PyStr s) = Return (b64encode bs).
Proof.
  intros H Hb. unfold generate_description.
  rewrite H, (utf8_decode_ascii _ (b64encode_ascii _ Hb)). reflexivity.
Qed.

Lemma decode_description_b64 (bs : pybytes) :
  Forall is_byte bs -> decode_description (b64encode bs) = utf8_decode bs.
Proof.
  intros Hb. unfold decode_description.
  replace (forallb _ (b64encode bs)) with true.
  - rewrite (b64decode_encode _ Hb). reflexivity.
  - symmetry. apply forallb_forall. intros c Hc.
    pose proof (b64encode_ascii _ Hb) as Ha. rewrite Forall_forall in Ha.
    apply between_true, Ha, Hc.
Qed.

(** C9. For every text string, the empty one and those with multi-byte
    characters included, base64-decoding what [generate_description]
    returns and reading the bytes as UTF-8 gives the string back. *)
Theorem generate_description_roundtrip (s : pystr) :
  is_text s ->
  exists encoded,
    generate_description (PyStr s) = Return encoded /\
    decode_description encoded = Some s.
Proof.
  intros Hs. destruct (utf8_encode_text s Hs) as (bs & Hbs & Hb).
  exists (b64encode bs). split.
  - apply generate_description_text; assumption.
  - rewrite decode_description_b64 by exact Hb.
    apply utf8_decode_encode; assumption.
Qed.

Lemma generate_description_roundtrip_witness :
  exists encoded,
    generate_description (PyStr [233; 8364; 128512; 65]) = Return encoded /\
    decode_description encoded = Some [233; 8364; 128512; 65].
Proof.
  apply (generate_description_roundtrip [233; 8364; 128512; 65]).
  apply is_textb_ok. reflexivity.
Defined.


(** ** Regular expressions *)

Section RegexFacts.

Variable digit : Z -> bool.

Lemma matches_digit (s : pystr) (k : pystr -> bool) :
  matches digit Digit s k = true <->
  exists x t, s = x :: t /\ digit x = true /\ k t = true.
Proof.
  destruct s as [|x t]; cbn [matches].
  - split; [discriminate|]. intros (x & t & H & _). discriminate.
  - rewrite andb_true_iff. split.
    + intros [H1 H2]. exists x, t. auto.
    + intros (x' & t' & H & H1 & H2). injection H as -> ->. auto.
Qed.

Lemma rep_0_0 (r : regex) (s : pystr) (k : pystr -> bool) :
  matches digit (Rep r 0 0) s k = k s.
Proof. reflexivity. Qed.

Lemma rep_S_0 (r : regex) (lo : nat) (s : pystr) (k : pystr -> bool) :
  matches digit (Rep r (S lo) 0) s k = false.
Proof. reflexivity. Qed.

Lemma rep_0_S (r : regex) (hi : nat) (s : pystr) (k : pystr -> bool) :
  matches digit (Rep r 0 (S hi)) s k
  = matches digit r s (fun t => matches digit (Rep r 0 hi) t k) || k s.
Proof. reflexivity. Qed.

Lemma rep_S_S (r : regex) (lo hi : nat) (s : pystr) (k : pystr -> bool) :
  matches digit (Rep r (S lo) (S hi)) s k
  = matches digit r s (fun t => matches digit (Rep r lo hi) t k).
Proof. reflexivity. Qed.

Lemma matches_rep_digit (hi : nat) :
  forall (lo : nat) (s : pystr) (k : pystr -> bool),
  matches digit (Rep Digit lo hi) s k = true <->
  exists ds t,
    s = ds ++ t /\ (lo <= length ds <= hi)%nat /\
    Forall (fun c => digit c = true) ds /\ k t = true.
Proof.
  induction hi as [|hi IH]; intros lo s k.
  - destruct lo as [|lo].
    + rewrite rep_0_0. split.
      * intros H. exists [], s. repeat split; auto.
      * intros (ds & t & -> & Hlen & _ & Hk).
        destruct ds; [exact Hk|simpl in Hlen; lia].
    + rewrite rep_S_0. split; [discriminate|].
      intros (ds & t & _ & Hlen & _). lia.
  - destruct lo as [|lo].
    + rewrite rep_0_S, orb_true_iff, matches_digit. split.
      * intros [(x & t & -> & Hx & Hm)|Hk].
        -- apply IH in Hm. destruct Hm as (ds & t' & -> & Hlen & Hds & Hk).
           exists (x :: ds), t'. repeat split; simpl; auto; lia.
        -- exists [], s. repeat split; simpl; auto; lia.
      * intros (ds & t & -> & Hlen & Hds & Hk).
        destruct ds as [|x ds]; [right; exact Hk|left].
        inversion Hds as [|? ? Hx Hds']; subst.
        exists x, (ds ++ t). repeat split; auto.
        apply IH. exists ds, t. repeat split; simpl in *; auto; lia.
    + rewrite rep_S_S, matches_digit. split.
      * intros (x & t & -> & Hx & Hm).
        apply IH in Hm. destruct Hm as (ds & t' & -> & Hlen & Hds & Hk).
        exists (x :: ds), t'. repeat split; simpl; auto; lia.
      * intros (ds & t & -> & Hlen & Hds & Hk).
        destruct ds as [|x ds]; [simpl in Hlen; lia|].
        inversion Hds as [|? ? Hx Hds']; subst.
        exists x, (ds ++ t). repeat split; auto.
        apply IH. exists ds, t. repeat split; simpl in *; auto; lia.
Qed.

Lemma matches_wallet (s : pystr) :
  matches digit WalletValidator_regex s (fun _ => true) = true <->
  exists ds tail,
    s = 80 :: ds ++ tail /\ (7 <= length ds <= 12)%nat /\
    Forall (fun c => digit c = true) ds /\ at_end tail = true.
Proof.
  unfold WalletValidator_regex.
  change (matches digit (Cat (Chr 80) (Cat (Rep Digit 7 12) Eol)) s (fun _ => true))
    with (match s with
          | x :: t => (x =? 80) &&
              matches digit (Rep Digit 7 12) t (fun u => at_end u && true)
          | [] => false
          end).
  destruct s as [|x t].
  - split; [discriminate|]. intros (ds & tail & H & _). discriminate.
  - rewrite andb_true_iff, Z.eqb_eq, matches_rep_digit. split.
    + intros (-> & ds & tail & -> & Hlen & Hds & Hend).
      rewrite andb_true_r in Hend. exists ds, tail. auto.
    + intros (ds & tail & H & Hlen & Hds & Hend). injection H as -> ->.
      split; [reflexivity|]. exists ds, tail.
      rewrite andb_true_r. auto.
Qed.

Lemma search_spec (r : regex) (s : pystr) :
  search digit r s = true <->
  exists before rest,
    s = before ++ rest /\ matches digit r rest (fun _ => true) = true.
Proof.
  induction s as [|x t IH].
  - cbn [search]. rewrite orb_false_r. split.
    + intros H. exists [], []. auto.
    + intros (before & rest & H & Hm).
      symmetry in H. apply app_eq_nil in H. destruct H as [_ ->]. exact Hm.
  - cbn [search]. rewrite orb_true_iff, IH. split.
    + intros [Hm|(before & rest & -> & Hm)].
      * exists [], (x :: t). auto.
      * exists (x :: before), rest. auto.
    + intros (before & rest & H & Hm).
      destruct before as [|y before].
      * left. simpl in H. subst rest. exact Hm.
      * right. simpl in H. injection H as -> ->. exists before, rest. auto.
Qed.

End RegexFacts.

(** ** The wallet validator *)

Lemma is_digit_decimal (E : Env) (c : Z) :
  is_digit E c = true <-> decimal_digit E c.
Proof.
  unfold is_digit, decimal_digit.
  rewrite orb_true_iff, !andb_true_iff, !Z.leb_le. tauto.
Qed.

Lemma digits_decimal (E : Env) (ds : pystr) :
  Forall (fun c => is_digit E c = true) ds <-> Forall (decimal_digit E) ds.
Proof.
  rewrite !Forall_forall. split; intros H c Hc; apply is_digit_decimal, H, Hc.
Qed.

Lemma validate_wallet_search (E : Env) (wallet : pyval) :
  validate_wallet E wallet = Return tt <->
  exists before ds tail,
    py_str wallet = before ++ 80 :: ds ++ tail /\
    (7 <= length ds <= 12)%nat /\
    Forall (fun c => is_digit E c = true) ds /\ at_end tail = true.
Proof.
  unfold validate_wallet.
  destruct (search (is_digit E) WalletValidator_regex (py_str wallet)) eqn:Hs.
  - apply search_spec in Hs. destruct Hs as (before & rest & Heq & Hm).
    apply matches_wallet in Hm. destruct Hm as (ds & tail & -> & Hm).
    split; [|reflexivity]. intros _. exists before, ds, tail. tauto.
  - split; [discriminate|].
    intros (before & ds & tail & Heq & Hm).
    assert (Ht : search (is_digit E) WalletValidator_regex (py_str wallet) = true).
    { apply search_spec. exists before, (80 :: ds ++ tail).
      split; [exact Heq|]. apply matches_wallet. exists ds, tail. tauto. }
    rewrite Hs in Ht. discriminate.
Qed.

Lemma validate_wallet_cases (E : Env) (wallet : pyval) :
  validate_wallet E wallet = Return tt \/
  validate_wallet E wallet = Raise ValidationError.
Proof.
  unfold validate_wallet.
  destruct (search _ _ _); [left|right]; reflexivity.
Qed.

Lemma at_end_cases (tail : pystr) :
  at_end tail = true -> tail = [] \/ tail = [10].
Proof.
  destruct tail as [|c [|d tail]]; cbn [at_end]; intros H.
  - left. reflexivity.
  - right. apply Z.eqb_eq in H. subst c. reflexivity.
  - discriminate.
Qed.

(** C5, as the code has it. For a string that does not end in a newline,
    validation succeeds exactly when the string ends with a wallet number,
    that is [P] and 7 to 12 decimal digits reaching the end of the string;
    what comes before the [P] is not looked at, and a decimal digit is one
    of 0-9 or a decimal digit of another script, never another ASCII
    character. Every other such string fails with ValidationError. *)
Theorem validate_wallet_end_anchored (E : Env) (wallet : pyval) :
  (forall t, py_str wallet <> t ++ [10]) ->
  (ends_with_wallet E (py_str wallet) ->
   validate_wallet E wallet = Return tt) /\
  (~ ends_with_wallet E (py_str wallet) ->
   validate_wallet E wallet = Raise ValidationError).
Proof.
  intros Hnl. split.
  - intros (before & w & Heq & ds & -> & Hlen & Hds).
    apply digits_decimal in Hds.
    apply validate_wallet_search. exists before, ds, [].
    rewrite app_nil_r. auto.
  - intros Hno. destruct (validate_wallet_cases E wallet) as [Hok|Hbad];
      [|exact Hbad].
    exfalso. apply validate_wallet_search in Hok.
    destruct Hok as (before & ds & tail & Heq & Hlen & Hds & Hend).
    apply digits_decimal in Hds.
    destruct (at_end_cases tail Hend) as [-> | ->].
    + apply Hno. exists before, (80 :: ds). rewrite app_nil_r in Heq.
      split; [exact Heq|]. exists ds. auto.
    + apply (Hnl (before ++ 80 :: ds)). rewrite Heq, <- app_assoc. reflexivity.
Qed.

Lemma not_ending_in_newline (s : pystr) :
  last s 0 <> 10 -> forall t, s <> t ++ [10].
Proof.
  intros H t ->. apply H. apply last_last.
Qed.

Lemma validate_wallet_end_anchored_witness :
  ((ends_with_wallet sample_env (py "P1234567") ->
    validate_wallet sample_env (PyStr (py "P1234567")) = Return tt) /\
   (~ ends_with_wallet sample_env (py "P1234567") ->
    validate_wallet sample_env (PyStr (py "P1234567")) = Raise ValidationError)) /\
  validate_wallet sample_env
    (PyStr (80 :: [1633; 1634; 1635; 1636; 1637; 1638; 1639])) = Return tt.
Proof.
  split.
  - apply (validate_wallet_end_anchored sample_env (PyStr (py "P1234567"))).
    apply not_ending_in_newline. vm_compute. discriminate.
  - apply (validate_wallet_end_anchored sample_env
             (PyStr (80 :: [1633; 1634; 1635; 1636; 1637; 1638; 1639]))).
    + apply not_ending_in_newline. vm_compute. discriminate.
    + exists [], (80 :: [1633; 1634; 1635; 1636; 1637; 1638; 1639]).
      split; [reflexivity|].
      exists [1633; 1634; 1635; 1636; 1637; 1638; 1639].
      split; [reflexivity|]. split; [cbn; lia|].
      repeat (apply Forall_cons; [right; split; [lia|reflexivity]|]).
      constructor.
Defined.

(** C5 as it was stated does not hold: a string that is not a wallet
    number in full, ["XP1234567"], passes validation. *)
Lemma validate_wallet_whole_string_counterexample :
  ~ (forall (E : Env) (s : pystr),
       validate_wallet E (PyStr s) = Return tt <-> wallet_shape E s).
Proof.
  intros H. destruct (H sample_env (py "XP1234567")) as [H1 _].
  assert (Hok : validate_wallet sample_env (PyStr (py "XP1234567")) = Return tt)
    by (vm_compute; reflexivity).
  destruct (H1 Hok) as (ds & Heq & _).
  vm_compute in Heq. inversion Heq.
Qed.

(** ** Dictionaries *)

Lemma str_eqb_sym (a b : pystr) : str_eqb a b = str_eqb b a.
Proof.
  destruct (str_eqb a b) eqn:H1; destruct (str_eqb b a) eqn:H2; auto.
  - apply str_eqb_eq in H1. subst. rewrite str_eqb_refl in H2. discriminate.
  - apply str_eqb_eq in H2. subst. rewrite str_eqb_refl in H1. discriminate.
Qed.

Lemma str_eqb_trans_l (a b c : pystr) :
  str_eqb a b = true -> str_eqb a c = str_eqb b c.
Proof. intros H. apply str_eqb_eq in H. subst. reflexivity. Qed.

Lemma dict_get_app {V} (d e : dict V) (k : pystr) :
  dict_get (d ++ e) k =
  match dict_get d k with
  | Some v => Some v
  | None => dict_get e k
  end.
Proof.
  induction d as [|[k' v'] d IH]; [reflexivity|].
  cbn [app dict_get]. destruct (str_eqb k' k); [reflexivity|exact IH].
Qed.

Lemma dict_get_replace {V} (d : dict V) (k k' : pystr) (v : V) :
  dict_get (map (fun kv => if str_eqb (fst kv) k then (k, v) else kv) d) k' =
  if str_eqb k k' then
    match dict_get d k with
    | Some _ => Some v
    | None => None
    end
  else dict_get d k'.
Proof.
  induction d as [|[a b] d IH]; cbn [map dict_get fst].
  - destruct (str_eqb k k'); reflexivity.
  - destruct (str_eqb a k) eqn:Hak; cbn [dict_get]; rewrite IH.
    + apply str_eqb_eq in Hak. subst a.
      destruct (str_eqb k k'); reflexivity.
    + destruct (str_eqb k k') eqn:Hkk'; [|reflexivity].
      apply str_eqb_eq in Hkk'. subst k'. rewrite Hak. reflexivity.
Qed.

(** Reading a dictionary after an assignment. *)
Lemma dict_get_set {V} (d : dict V) (k k' : pystr) (v : V) :
  dict_get (dict_set d k v) k' =
  if str_eqb k k' then Some v else dict_get d k'.
Proof.
  unfold dict_set. destruct (dict_get d k) as [old|] eqn:Hk.
  - rewrite dict_get_replace, Hk. reflexivity.
  - rewrite dict_get_app. cbn [dict_get].
    destruct (str_eqb k k') eqn:Hkk'.
    + apply str_eqb_eq in Hkk'. subst k'. rewrite Hk. reflexivity.
    + destruct (dict_get d k'); reflexivity.
Qed.

Lemma dict_update_snoc {V} (d e : dict V) (k : pystr) (v : V) :
  dict_update d (e ++ [(k, v)]) = dict_set (dict_update d e) k v.
Proof. unfold dict_update. rewrite fold_left_app. reflexivity. Qed.

(** [update] is last-write-wins: a key of [other] takes the value of its
    last occurrence there, any other key keeps what it had. *)
Lemma dict_get_update {V} (d other : dict V) (k : pystr) :
  dict_get (dict_update d other) k =
  match dict_get (rev other) k with
  | Some v => Some v
  | None => dict_get d k
  end.
Proof.
  induction other as [|[k' v'] other IH] using rev_ind; [reflexivity|].
  rewrite dict_update_snoc, dict_get_set, rev_app_distr.
  cbn [rev app dict_get]. destruct (str_eqb k' k); [reflexivity|exact IH].
Qed.

(** ** The callback handler *)

Lemma ip_in_false (request_ip : option pystr) (allowed : list pystr) :
  (forall ip, request_ip = Some ip -> ~ In ip allowed) ->
  ip_in request_ip allowed = false.
Proof.
  intros H. destruct request_ip as [ip|]; [|reflexivity].
  cbn [ip_in]. destruct (existsb (str_eqb ip) allowed) eqn:Hex; [|reflexivity].
  apply existsb_exists in Hex. destruct Hex as (x & Hin & Heq).
  apply str_eqb_eq in Heq. subst x. exfalso. exact (H ip eq_refl Hin).
Qed.

Lemma ip_in_true (ip : pystr) (allowed : list pystr) :
  In ip allowed -> ip_in (Some ip) allowed = true.
Proof.
  intros H. cbn [ip_in]. apply existsb_exists. exists ip.
  split; [exact H|apply str_eqb_refl].
Qed.

(** C3. A callback whose client address is not in the allow-list raises
    PayeerAPIException('Wrong request IP'), whatever its other fields are,
    and nothing has been signed by then. *)
Theorem merchant_handler_wrong_ip
    (E : Env) (self : PayeerApi) (request : HttpRequest) :
  (forall ip, get_client_ip request = Some ip ->
              ~ In ip (PAYEER_ALLOWED_IPS E)) ->
  merchant_handler E self request
  = (Raise (PayeerAPIException (JStr (py "Wrong request IP"))), []).
Proof.
  intros H. unfold merchant_handler.
  rewrite (ip_in_false _ _ H). reflexivity.
Qed.

Lemma merchant_handler_wrong_ip_witness :
  merchant_handler sample_env sample_api
    {| META := [(py "REMOTE_ADDR", py "203.0.113.7")];
       POST := POST sample_callback |}
  = (Raise (PayeerAPIException (JStr (py "Wrong request IP"))), []).
Proof.
  apply (merchant_handler_wrong_ip sample_env sample_api).
  intros ip Hip. vm_compute in Hip. apply Some_inj in Hip. subst ip.
  intros Hin. apply (ip_in_true _ _) in Hin. vm_compute in Hin. discriminate.
Defined.

(** C2 fails on the code. For a callback from an allowed address the
    value bound to [params_for_sign] is what [list.append] returns, which
    is [None]; [generate_signature] cannot join it and the handler raises
    TypeError instead of returning a verdict. *)
Theorem merchant_handler_allowed_ip_raises
    (E : Env) (self : PayeerApi) (request : HttpRequest) :
  ip_in (get_client_ip request) (PAYEER_ALLOWED_IPS E) = true ->
  merchant_handler E self request = (Raise TypeError, [EvSign None]).
Proof.
  intros H. unfold merchant_handler. rewrite H. reflexivity.
Qed.

Lemma merchant_handler_allowed_ip_raises_witness :
  merchant_handler sample_env sample_api sample_callback
  = (Raise TypeError, [EvSign None]).
Proof.
  apply (merchant_handler_allowed_ip_raises sample_env sample_api sample_callback).
  vm_compute. reflexivity.
Defined.

(** ** The effect monad *)

Lemma bind_return {A B} (a : A) (k : A -> M B) :
  bind (Return a, []) k = k a.
Proof. unfold bind. destruct (k a). reflexivity. Qed.

Lemma bind_lift_return {A B} (r : result A) (a : A) (k : A -> M B) :
  r = Return a -> bind (lift r) k = k a.
Proof. intros ->. apply bind_return. Qed.

Lemma bind_lift_raise {A B} (r : result A) (e : exn) (k : A -> M B) :
  r = Raise e -> bind (lift r) k = (Raise e, []).
Proof. intros ->. reflexivity. Qed.

Lemma bind_tell {B} (ev : event) (k : unit -> M B) :
  bind (tell ev) k = (fst (k tt), ev :: snd (k tt)).
Proof. unfold bind, tell. destruct (k tt). reflexivity. Qed.

Lemma call_generate_signature_return {B}
    (p : option (list pyval)) (s : pystr) (k : pystr -> M B) :
  generate_signature p = Return s ->
  bind (call_generate_signature p) k = (fst (k s), EvSign p :: snd (k s)).
Proof.
  intros H. unfold call_generate_signature, bind, tell, lift.
  rewrite H. destruct (k s). reflexivity.
Qed.

(** ** urlencode succeeds on text *)

Lemma ascii_text (s : pystr) : Forall (fun c => 0 <= c < 128) s -> is_text s.
Proof.
  apply Forall_impl. intros c Hc. left. lia.
Qed.

Lemma upper_hex_text (s : pystr) : Forall is_upper_hex s -> is_text s.
Proof.
  apply Forall_impl. intros c Hc. left. unfold is_upper_hex in Hc. lia.
Qed.

Lemma quote_plus_text (s : pystr) :
  is_text s -> exists q, quote_plus s = Return q.
Proof.
  intros H. destruct (utf8_encode_text s H) as (bs & Hbs & _).
  unfold quote_plus. rewrite Hbs. eexists. reflexivity.
Qed.

Lemma quote_value_text (v : pyval) :
  quotable v -> exists q, quote_value v = Return q.
Proof.
  destruct v as [|s|data|shown]; cbn [quotable quote_value];
    try apply quote_plus_text.
  intros _. eexists. reflexivity.
Qed.

Lemma urlencode_text (d : dict pyval) :
  text_items d -> exists q, urlencode d = Return q.
Proof.
  intros H. unfold urlencode.
  assert (Hi : exists items, urlencode_items d = Return items).
  { induction H as [|[k v] rest [Hk Hv] Hrest IH]; cbn [urlencode_items].
    - eexists. reflexivity.
    - cbn [fst snd] in Hk, Hv.
      destruct (quote_plus_text k Hk) as (qk & ->).
      destruct (quote_value_text _ Hv) as (qv & ->).
      destruct IH as (items & ->). eexists. reflexivity. }
  destruct Hi as (items & ->). eexists. reflexivity.
Qed.

Lemma In_dict_set {V} (d : dict V) (k : pystr) (v : V) (kv : pystr * V) :
  In kv (dict_set d k v) -> In kv d \/ kv = (k, v).
Proof.
  unfold dict_set. destruct (dict_get d k).
  - rewrite in_map_iff. intros ([a b] & Heq & Hin). cbn [fst] in Heq.
    destruct (str_eqb a k); [right|left]; congruence.
  - rewrite in_app_iff. cbn [In]. intros [H|[H|[]]]; auto.
Qed.

Lemma In_dict_update {V} (d other : dict V) (kv : pystr * V) :
  In kv (dict_update d other) -> In kv d \/ In kv other.
Proof.
  induction other as [|[k v] other IH] using rev_ind; [auto|].
  rewrite dict_update_snoc. intros H. apply In_dict_set in H.
  rewrite in_app_iff. cbn [In]. destruct H as [H| ->]; [|auto].
  destruct (IH H); auto.
Qed.

Lemma text_items_update (d other : dict pyval) :
  text_items d -> text_items other -> text_items (dict_update d other).
Proof.
  unfold text_items. rewrite !Forall_forall. intros Hd Ho kv Hin.
  destruct (In_dict_update _ _ _ Hin); auto.
Qed.

(** ** The checkout link *)

(** C4. For an order whose fields the form accepts as strings,
    [merchant] returns a parameter mapping built from the merchant id, the
    accepted order id, amount and currency, the base64 of the UTF-8 bytes
    of the description (which decodes back to the description), the
    signature of [merchant id, order id, amount, currency, base64
    description, secret key], ["send"] and the language; the caller's extra
    parameters are merged last, the last value given for a key winning
    over any of these; the only effect of the call is the signing. *)
Theorem merchant_checkout_params
    (E : Env) (self : PayeerApi)
    (order_id amount currency description0 language : pyval)
    (kwargs : dict pyval)
    (mid key oid amt cur desc : pystr) (lang : pyval) :
  let data :=
    MerchantForm E (submitted E order_id amount currency description0 language) in
  validate_wallet E (_account self) = Return tt ->
  _merchant_id self = PyStr mid ->
  _merchant_secret_key self = PyStr key ->
  dict_get data (py "order_id") = Some (PyStr oid) ->
  dict_get data (py "amount") = Some (PyStr amt) ->
  dict_get data (py "currency") = Some (PyStr cur) ->
  dict_get_default data (py "description") (PyStr []) = PyStr desc ->
  dict_get data (py "language") = Some lang ->
  Forall is_text [mid; oid; amt; cur; desc; key] ->
  quotable lang ->
  text_items kwargs ->
  exists desc_bytes m_desc m_sign r,
    utf8_encode desc = Some desc_bytes /\
    m_desc = b64encode desc_bytes /\
    decode_description m_desc = Some desc /\
    generate_description (PyStr desc) = Return m_desc /\
    generate_signature
      (Some [PyStr mid; PyStr oid; PyStr amt; PyStr cur; PyStr m_desc; PyStr key])
      = Return m_sign /\
    merchant E self order_id amount currency description0 language kwargs
      = (Return r,
         [EvSign (Some [PyStr mid; PyStr oid; PyStr amt; PyStr cur;
                        PyStr m_desc; PyStr key])]) /\
    signature r = m_sign /\
    params r
      = dict_update (checkout_params mid oid amt cur m_desc m_sign lang) kwargs /\
    (forall k,
       dict_get (params r) k =
       match dict_get (rev kwargs) k with
       | Some v => Some v
       | None => dict_get (checkout_params mid oid amt cur m_desc m_sign lang) k
       end).
Proof.
  intros data Hw Hmid Hkey Hoid Hamt Hcur Hdesc Hlang Htext Hql Hkw.
  assert (Ht : forall s, In s [mid; oid; amt; cur; desc; key] -> is_text s)
    by (apply Forall_forall; exact Htext).
  assert (Hdt : is_text desc) by (apply Ht; cbn; tauto).
  destruct (utf8_encode_text desc Hdt) as (dbytes & Hdb & Hdbytes).
  pose proof (generate_description_text desc dbytes Hdb Hdbytes) as Hgd.
  assert (Hdec : decode_description (b64encode dbytes) = Some desc).
  { rewrite decode_description_b64 by exact Hdbytes.
    apply utf8_decode_encode; assumption. }
  set (m_desc := b64encode dbytes) in *.
  assert (Hmd : is_text m_desc) by (apply ascii_text, b64encode_ascii, Hdbytes).
  assert (Hfields : Forall is_text [mid; oid; amt; cur; m_desc; key]).
  { repeat (apply Forall_cons; [first [exact Hmd | apply Ht; cbn; tauto]|]).
    constructor. }
  destruct (generate_signature_sha256_fields _ Hfields) as (m_sign & Hsig & Hst).
  cbn [map] in Hsig.
  set (base := checkout_params mid oid amt cur m_desc m_sign lang).
  assert (Hbase : text_items base).
  { unfold text_items, base, checkout_params.
    repeat (apply Forall_cons;
            [cbn [fst snd quotable py_str]; split;
             first [ exact Hql | exact Hmd | exact Hst | apply Ht; cbn; tauto
                   | apply is_textb_ok; reflexivity ]|]).
    constructor. }
  destruct (urlencode_text _ (text_items_update _ _ Hbase Hkw)) as (query & Hq).
  exists dbytes, m_desc, m_sign.
  exists {| location := merchant_url ++ query;
            signature := m_sign;
            description := description0;
            params := dict_update base kwargs |}.
  split; [exact Hdb|]. split; [reflexivity|]. split; [exact Hdec|].
  split; [exact Hgd|]. split; [exact Hsig|].
  split; [|split; [reflexivity|split; [reflexivity|intros k; apply dict_get_update]]].
  unfold merchant. fold (submitted E order_id amount currency description0 language).
  fold data.
  rewrite (bind_lift_return _ tt) by exact Hw.
  rewrite Hdesc, (bind_lift_return _ m_desc) by exact Hgd.
  unfold getitem. rewrite Hoid, Hamt, Hcur, Hlang, Hmid, Hkey.
  rewrite !(bind_lift_return _ _ _ eq_refl).
  rewrite (call_generate_signature_return _ m_sign) by exact Hsig.
  rewrite !(bind_lift_return _ _ _ eq_refl).
  fold (checkout_params mid oid amt cur m_desc m_sign lang). fold base.
  rewrite !(bind_lift_return _ query) by exact Hq.
  reflexivity.
Qed.

Lemma merchant_checkout_params_witness :
  exists r,
    merchant sample_env sample_api
      (PyStr (py "1001")) (PyStr (py "10.00")) (PyStr (py "USD"))
      (PyStr (py "Test order")) PyNone
      [(py "lang", PyStr (py "ru")); (py "m_cur", PyStr (py "USD"))]
      = (Return r,
         [EvSign (Some [PyStr (py "987654"); PyStr (py "1001");
                        PyStr (py "10.00"); PyStr (py "USD");
                        PyStr (py "VGVzdCBvcmRlcg=="); PyStr (py "secret")])]) /\
    signature r
      = py "E63CF59ECD28A83127C7CF455E7E385B5C0E46C67C24821B19872D082EA15F8E" /\
    dict_get (params r) (py "m_shop") = Some (PyStr (py "987654")) /\
    dict_get (params r) (py "m_orderid") = Some (PyStr (py "1001")) /\
    dict_get (params r) (py "m_amount") = Some (PyStr (py "10.00")) /\
    dict_get (params r) (py "m_curr") = Some (PyStr (py "USD")) /\
    dict_get (params r) (py "m_desc") = Some (PyStr (py "VGVzdCBvcmRlcg==")) /\
    dict_get (params r) (py "m_sign")
      = Some (PyStr (py "E63CF59ECD28A83127C7CF455E7E385B5C0E46C67C24821B19872D082EA15F8E")) /\
    dict_get (params r) (py "m_process") = Some (PyStr (py "send")) /\
    dict_get (params r) (py "lang") = Some (PyStr (py "ru")) /\
    dict_get (params r) (py "m_cur") = Some (PyStr (py "USD")).
Proof.
  destruct (merchant_checkout_params sample_env sample_api
              (PyStr (py "1001")) (PyStr (py "10.00")) (PyStr (py "USD"))
              (PyStr (py "Test order")) PyNone
              [(py "lang", PyStr (py "ru")); (py "m_cur", PyStr (py "USD"))]
              (py "987654") (py "secret") (py "1001") (py "10.00") (py "USD")
              (py "Test order") (PyStr (py "en")))
    as (desc_bytes & m_desc & m_sign & r & Hb & Hm & _ & _ & Hs & Hr & Hsr & _ & Hk).
  1-8: vm_compute; reflexivity.
  - apply all_textb_ok. reflexivity.
  - apply is_textb_ok. reflexivity.
  - apply Forall_forall. intros kv Hin. cbn [In] in Hin.
    destruct Hin as [<-|[<-|[]]]; split; apply is_textb_ok; reflexivity.
  - assert (Hb' : desc_bytes = py "Test order")
      by (apply Some_inj; rewrite <- Hb; vm_compute; reflexivity).
    assert (Hm' : m_desc = py "VGVzdCBvcmRlcg==")
      by (rewrite Hm, Hb'; vm_compute; reflexivity).
    subst m_desc.
    assert (Hs' : m_sign
              = py "E63CF59ECD28A83127C7CF455E7E385B5C0E46C67C24821B19872D082EA15F8E").
    { rewrite Hm' in Hs.
      assert (Hc : generate_signature
                (Some [PyStr (py "987654"); PyStr (py "1001"); PyStr (py "10.00");
                       PyStr (py "USD"); PyStr (py "VGVzdCBvcmRlcg==");
                       PyStr (py "secret")])
              = Return (py "E63CF59ECD28A83127C7CF455E7E385B5C0E46C67C24821B19872D082EA15F8E"))
        by (vm_compute; reflexivity).
      rewrite Hc in Hs. congruence. }
    rewrite Hm' in Hr, Hk. rewrite Hs' in Hk.
    exists r. split; [exact Hr|]. split; [rewrite Hsr; exact Hs'|].
    rewrite !Hk. repeat split; vm_compute; reflexivity.
Defined.

(** C8 fails on the code. The form is run but its verdict is dropped: an
    amount the form rejects is missing from [cleaned_data] and surfaces as
    KeyError('amount'), and a rejected language surfaces as
    KeyError('language') only once the signature has been computed. No
    ValidationError reaches the caller in either case. *)
Theorem merchant_rejected_field_KeyError :
  merchant sample_env sample_api
    (PyStr (py "1001")) (PyStr (py "ten")) (PyStr (py "USD"))
    (PyStr (py "Test order")) PyNone []
  = (Raise (KeyError (py "amount")), []) /\
  exists m_sign,
    merchant sample_env sample_api
      (PyStr (py "1001")) (PyStr (py "10.00")) (PyStr (py "USD"))
      (PyStr (py "Test order")) (PyStr (py "xx")) []
    = (Raise (KeyError (py "language")),
       [EvSign (Some [PyStr (py "987654"); PyStr (py "1001");
                      PyStr (py "10.00"); PyStr (py "USD");
                      PyStr (py "VGVzdCBvcmRlcg=="); PyStr (py "secret")])]) /\
    generate_signature
      (Some [PyStr (py "987654"); PyStr (py "1001");
             PyStr (py "10.00"); PyStr (py "USD");
             PyStr (py "VGVzdCBvcmRlcg=="); PyStr (py "secret")])
    = Return m_sign.
Proof.
  split; [vm_compute; reflexivity|].
  eexists. split; vm_compute; reflexivity.
Qed.

(** ** The remote API *)

Lemma fst_bind_return {A B} (m : M A) (a : A) (tr : list event) (k : A -> M B) :
  m = (Return a, tr) -> fst (bind m k) = fst (k a).
Proof. intros ->. unfold bind. destruct (k a). reflexivity. Qed.


Lemma fst_bind_fst {A B} (m : M A) (a : A) (k : A -> M B) :
  fst m = Return a -> fst (bind m k) = fst (k a).
Proof.
  destruct m as [r tr]. cbn [fst]. intros ->. apply (fst_bind_return _ a tr).
  reflexivity.
Qed.

Lemma request_api_unfold (E : Env) (self : PayeerApi) (params : dict pyval) :
  request_api E self params =
  let posted := dict_update params (credentials self) in
  match requests_post E api_url posted with
  | inr response =>
      match json_get response (py "errors") JNull with
      | Return errors =>
          if json_truthy errors
          then (Raise (PayeerAPIException errors), [EvPost api_url posted])
          else (Return response, [EvPost api_url posted])
      | Raise e => (Raise e, [EvPost api_url posted])
      end
  | inl name => (Raise (TransportError name), [EvPost api_url posted])
  end.
Proof.
  unfold request_api, post_json. cbv zeta.
  destruct (requests_post E api_url _) as [name|response]; [reflexivity|].
  cbn [bind tell ret app lift].
  destruct (json_get response (py "errors") JNull) as [errors|e]; [|reflexivity].
  cbn [bind]. destruct (json_truthy errors); reflexivity.
Qed.

Lemma request_api_body (E : Env) (self : PayeerApi) (params : dict pyval)
    (body : dict json) :
  requests_post E api_url (dict_update params (credentials self))
    = inr (JDict body) ->
  fst (request_api E self params) =
  if json_truthy (dict_get_default body (py "errors") JNull)
  then Raise (PayeerAPIException (dict_get_default body (py "errors") JNull))
  else Return (JDict body).
Proof.
  intros H. rewrite request_api_unfold. cbv zeta. rewrite H.
  cbn [json_get]. destruct (json_truthy _); reflexivity.
Qed.

Lemma except_after_request (m : M json) :
  fst (except_PayeerAPIException (bind m (fun _ => ret true)) false) =
  match fst m with
  | Return _ => Return true
  | Raise (PayeerAPIException _) => Return false
  | Raise e => Raise e
  end.
Proof.
  destruct m as [[a|e] tr]; cbn; [reflexivity|].
  destruct e; reflexivity.
Qed.

(** A non-empty list, mapping or string of errors is a true value, an
    empty or absent one a false value. *)
Lemma json_truthy_nonempty :
  (forall items, json_truthy (JList items) = true <-> items <> []) /\
  (forall fields, json_truthy (JDict fields) = true <-> fields <> []) /\
  (forall s, json_truthy (JStr s) = true <-> s <> []) /\
  json_truthy JNull = false.
Proof.
  repeat split; try (destruct items); try (destruct fields); try (destruct s);
    cbn; congruence.
Qed.



Lemma float_not_positive (x : float) :
  PrimFloat.eqb x PrimFloat.zero = true \/ PrimFloat.ltb x PrimFloat.zero = true ->
  PrimFloat.ltb PrimFloat.zero x = false.
Proof.
  rewrite FloatAxioms.eqb_spec, !FloatAxioms.ltb_spec.
  change (Prim2SF PrimFloat.zero) with (S754_zero false).
  unfold SFeqb, SFltb.
  destruct (Prim2SF x) as [s|s| |s m e]; cbn; try destruct s;
    intros [H|H]; try discriminate H; reflexivity.
Qed.

(** C7. When the recipient wallet is valid and the service answers
    without errors, [transfer] returns [True] exactly when the answer holds
    a [historyId] greater than zero; it returns [False] when [historyId]
    is absent, zero or negative. *)
Theorem transfer_historyId (E : Env) (self : PayeerApi)
    (sum to cur_in cur_out comment protect protect_period protect_code : pyval)
    (body : dict json) :
  validate_wallet E to = Return tt ->
  fst (request_api E self
         (transfer_data sum to cur_in cur_out
            comment protect protect_period protect_code))
    = Return (JDict body) ->
  let result :=
    fst (transfer E self sum to cur_in cur_out
           comment protect protect_period protect_code) in
  (result = Return true <->
   exists v, dict_get body (py "historyId") = Some v /\ json_positive v) /\
  (dict_get body (py "historyId") = None -> result = Return false) /\
  (forall v, dict_get body (py "historyId") = Some v ->
             json_zero_or_negative v -> result = Return false).
Proof.
  intros Hw Hresp result.
  assert (Hres : result =
    match json_gt_zero (dict_get_default body (py "historyId") (JInt 0)) with
    | Return b => Return b
    | Raise e => Raise e
    end).
  { unfold result, transfer. rewrite (bind_lift_return _ tt) by exact Hw.
    rewrite (fst_bind_fst _ _ _ Hresp). cbn [json_get].
    rewrite (bind_lift_return _ _ _ eq_refl).
    destruct (json_gt_zero _) as [[|]|e]; reflexivity. }
  rewrite Hres. unfold dict_get_default.
  repeat split.
  - destruct (dict_get body (py "historyId")) as [v|] eqn:Hv.
    + intros H. exists v. split; [reflexivity|].
      destruct v; cbn in H |- *; try discriminate; try congruence.
      injection H as H. apply Z.ltb_lt, H.
    + cbn. discriminate.
  - intros (v & -> & Hpos).
    destruct v; cbn in Hpos |- *; try contradiction; try congruence.
    apply Z.ltb_lt in Hpos. rewrite Hpos. reflexivity.
  - intros ->. reflexivity.
  - intros v -> Hv. destruct v; cbn in Hv |- *; try contradiction.
    + subst b. reflexivity.
    + destruct (Z.ltb_spec 0 n); [lia|reflexivity].
    + f_equal. apply (float_not_positive x). exact Hv.
Qed.

Lemma transfer_historyId_witness :
  let result :=
    fst (transfer sample_env sample_api (PyStr (py "1.50")) (PyStr (py "P1000001"))
           (PyStr (py "USD")) (PyStr (py "USD")) PyNone PyNone PyNone PyNone) in
  let body := [(py "auth_error", JStr (py "0"));
               (py "errors", JList []);
               (py "historyId", JInt 1915463)] in
  (result = Return true <->
   exists v, dict_get body (py "historyId") = Some v /\ json_positive v) /\
  (dict_get body (py "historyId") = None -> result = Return false) /\
  (forall v, dict_get body (py "historyId") = Some v ->
             json_zero_or_negative v -> result = Return false).
Proof.
  apply (transfer_historyId sample_env sample_api
           (PyStr (py "1.50")) (PyStr (py "P1000001"))
           (PyStr (py "USD")) (PyStr (py "USD")) PyNone PyNone PyNone PyNone).
  - vm_compute. reflexivity.
  - vm_compute. reflexivity.
Defined.

(** ** What is posted *)

Lemma In_dict_get_some {V} (d : dict V) (k : pystr) (v : V) :
  In (k, v) d -> dict_get d k <> None.
Proof.
  induction d as [|[a b] d IH]; [contradiction|].
  cbn [In dict_get]. intros [H|H].
  - injection H as -> ->. rewrite str_eqb_refl. discriminate.
  - destruct (str_eqb a k); [discriminate|apply IH, H].
Qed.

(** After [d[k] = v], every entry of [d] under [k] holds [v]. *)
Lemma In_dict_set_same {V} (d : dict V) (k : pystr) (v v' : V) :
  In (k, v') (dict_set d k v) -> v' = v.
Proof.
  unfold dict_set. destruct (dict_get d k) eqn:Hk.
  - rewrite in_map_iff. intros ([a b] & Heq & Hin). cbn [fst] in Heq.
    destruct (str_eqb a k) eqn:Hak; [congruence|].
    injection Heq as -> ->. rewrite str_eqb_refl in Hak. discriminate.
  - rewrite in_app_iff. cbn [In]. intros [H|[H|[]]]; [|congruence].
    apply In_dict_get_some in H. contradiction.
Qed.

Lemma In_dict_set_other {V} (d : dict V) (k k' : pystr) (v v' : V) :
  k' <> k -> In (k', v') (dict_set d k v) -> In (k', v') d.
Proof.
  intros Hne H. destruct (In_dict_set _ _ _ _ H) as [H'|H']; [exact H'|].
  congruence.
Qed.

Lemma py_neq (a b : string) : str_eqb (py a) (py b) = false -> py a <> py b.
Proof. apply str_eqb_neq. Qed.

Lemma posted_unfold (self : PayeerApi) (params : dict pyval) :
  dict_update params (credentials self) =
  dict_set (dict_set (dict_set params (py "account") (_account self))
                     (py "apiId") (_api_id self))
           (py "apiPass") (_api_pass self).
Proof. reflexivity. Qed.

(** C10. Whatever parameters the caller gives, [request_api] posts once,
    to the API address, and the posted parameters carry the configured
    account, apiId and apiPass: a value the caller gave under one of these
    names is replaced and is not posted; the caller's other parameters are
    posted unchanged. *)
Theorem request_api_posts_credentials
    (E : Env) (self : PayeerApi) (params : dict pyval) :
  exists posted,
    snd (request_api E self params) = [EvPost api_url posted] /\
    dict_get posted (py "account") = Some (_account self) /\
    dict_get posted (py "apiId") = Some (_api_id self) /\
    dict_get posted (py "apiPass") = Some (_api_pass self) /\
    (forall v, In (py "account", v) posted -> v = _account self) /\
    (forall v, In (py "apiId", v) posted -> v = _api_id self) /\
    (forall v, In (py "apiPass", v) posted -> v = _api_pass self) /\
    (forall k, k <> py "account" -> k <> py "apiId" -> k <> py "apiPass" ->
               dict_get posted k = dict_get params k).
Proof.
  exists (dict_update params (credentials self)).
  split.
  { rewrite request_api_unfold. cbv zeta.
    destruct (requests_post E api_url _) as [name|response]; [reflexivity|].
    destruct (json_get response (py "errors") JNull) as [errors|e]; [|reflexivity].
    destruct (json_truthy errors); reflexivity. }
  rewrite posted_unfold.
  assert (N1 : py "account" <> py "apiId") by (apply py_neq; reflexivity).
  assert (N2 : py "account" <> py "apiPass") by (apply py_neq; reflexivity).
  assert (N3 : py "apiId" <> py "apiPass") by (apply py_neq; reflexivity).
  repeat split.
  - rewrite !dict_get_set. reflexivity.
  - rewrite !dict_get_set. reflexivity.
  - rewrite !dict_get_set. reflexivity.
  - intros v H.
    apply In_dict_set_other in H; [|exact N2].
    apply In_dict_set_other in H; [|exact N1].
    apply In_dict_set_same in H. exact H.
  - intros v H.
    apply In_dict_set_other in H; [|exact N3].
    apply In_dict_set_same in H. exact H.
  - intros v H. apply In_dict_set_same in H. exact H.
  - intros k H1 H2 H3. rewrite !dict_get_set.
    apply not_eq_sym, str_eqb_neq in H1, H2, H3.
    rewrite H1, H2, H3. reflexivity.
Qed.


(** ** The client address *)








(** X2. The callback handler never returns a verdict: it raises the
    wrong-address error for a caller outside the allow-list and TypeError
    for every other caller, and it posts nothing. *)
Theorem merchant_handler_never_returns
    (E : Env) (self : PayeerApi) (request : HttpRequest) :
  (merchant_handler E self request
   = (Raise (PayeerAPIException (JStr (py "Wrong request IP"))), [])
   /\ ip_in (get_client_ip request) (PAYEER_ALLOWED_IPS E) = false)
  \/
  (merchant_handler E self request = (Raise TypeError, [EvSign None])
   /\ ip_in (get_client_ip request) (PAYEER_ALLOWED_IPS E) = true).
Proof.
  unfold merchant_handler.
  destruct (ip_in (get_client_ip request) (PAYEER_ALLOWED_IPS E));
    [right|left]; split; reflexivity.
Qed.

(** ** What [merchant] can raise and do *)

Lemma generate_description_raises (v : pyval) (e : exn) :
  generate_description v = Raise e -> e <> ValidationError.
Proof.
  unfold generate_description. destruct v as [|s|data|shown]; try congruence.
  destruct (utf8_encode s) as [bs|]; [|congruence].
  destruct (utf8_decode (b64encode bs)); congruence.
Qed.

Lemma getitem_raises {V} (d : dict V) (k : pystr) (e : exn) :
  getitem d k = Raise e -> e = KeyError k.
Proof. unfold getitem. destruct (dict_get d k); congruence. Qed.

Lemma generate_signature_raises (p : option (list pyval)) (e : exn) :
  generate_signature p = Raise e -> e = TypeError \/ e = UnicodeEncodeError.
Proof.
  unfold generate_signature. destruct p as [items|]; [|left; congruence].
  destruct (all_str items) as [fields|]; [|left; congruence].
  destruct (utf8_encode _); [discriminate|right; congruence].
Qed.

Lemma quote_plus_raises (s : pystr) (e : exn) :
  quote_plus s = Raise e -> e = UnicodeEncodeError.
Proof. unfold quote_plus. destruct (utf8_encode s); congruence. Qed.

Lemma quote_value_raises (v : pyval) (e : exn) :
  quote_value v = Raise e -> e = UnicodeEncodeError.
Proof.
  destruct v as [|s|data|shown]; cbn [quote_value];
    try apply quote_plus_raises.
  discriminate.
Qed.

Lemma urlencode_items_raises (d : dict pyval) (e : exn) :
  urlencode_items d = Raise e -> e = UnicodeEncodeError.
Proof.
  induction d as [|[k v] rest IH]; cbn [urlencode_items]; [discriminate|].
  destruct (quote_plus k) as [qk|e1] eqn:Hk.
  - destruct (quote_value v) as [qv|e2] eqn:Hv.
    + destruct (urlencode_items rest) as [items|e3]; [discriminate|].
      intros H. apply IH. congruence.
    + intros H. apply quote_value_raises in Hv. congruence.
  - intros H. apply quote_plus_raises in Hk. congruence.
Qed.

Lemma urlencode_raises (d : dict pyval) (e : exn) :
  urlencode d = Raise e -> e = UnicodeEncodeError.
Proof.
  unfold urlencode. destruct (urlencode_items d) as [items|e'] eqn:Hi;
    [discriminate|].
  intros H. apply urlencode_items_raises in Hi. congruence.
Qed.

Lemma call_generate_signature_raise {B}
    (p : option (list pyval)) (e : exn) (k : pystr -> M B) :
  generate_signature p = Raise e ->
  bind (call_generate_signature p) k = (Raise e, [EvSign p]).
Proof.
  intros H. unfold call_generate_signature, bind, tell, lift.
  rewrite H. reflexivity.
Qed.

(** Every way [merchant] can end once the account has passed. *)
Lemma merchant_outcome
    (E : Env) (self : PayeerApi)
    (order_id amount currency description language : pyval)
    (kwargs : dict pyval) :
  validate_wallet E (_account self) = Return tt ->
  let m := merchant E self order_id amount currency description language kwargs in
  fst m <> Raise ValidationError /\
  (snd m = [] \/ exists p, snd m = [EvSign p]).
Proof.
  intros Hw. unfold merchant.
  rewrite (bind_lift_return _ tt) by exact Hw.
  destruct (generate_description _) as [m_desc|e] eqn:Hgd.
  2:{ rewrite (bind_lift_raise _ e) by reflexivity. cbn [fst snd].
      split; [|left; reflexivity].
      intros H. injection H as ->. exact (generate_description_raises _ _ Hgd eq_refl). }
  rewrite (bind_lift_return _ m_desc) by reflexivity.
  destruct (getitem _ (py "order_id")) as [oid|e] eqn:H1.
  2:{ rewrite (bind_lift_raise _ e) by reflexivity. cbn [fst snd].
      apply getitem_raises in H1. subst e.
      split; [discriminate|left; reflexivity]. }
  rewrite (bind_lift_return _ oid) by reflexivity.
  destruct (getitem _ (py "amount")) as [amt|e] eqn:H2.
  2:{ rewrite (bind_lift_raise _ e) by reflexivity. cbn [fst snd].
      apply getitem_raises in H2. subst e.
      split; [discriminate|left; reflexivity]. }
  rewrite (bind_lift_return _ amt) by reflexivity.
  destruct (getitem _ (py "currency")) as [cur|e] eqn:H3.
  2:{ rewrite (bind_lift_raise _ e) by reflexivity. cbn [fst snd].
      apply getitem_raises in H3. subst e.
      split; [discriminate|left; reflexivity]. }
  rewrite (bind_lift_return _ cur) by reflexivity.
  destruct (generate_signature
              (Some [_merchant_id self; oid; amt; cur; PyStr m_desc;
                     _merchant_secret_key self])) as [sig|e] eqn:Hs.
  2:{ rewrite (call_generate_signature_raise _ e) by exact Hs. cbn [fst snd].
      split; [|right; eexists; reflexivity].
      destruct (generate_signature_raises _ _ Hs); subst e; discriminate. }
  rewrite (call_generate_signature_return _ sig) by exact Hs. cbn [fst snd].
  destruct (getitem _ (py "language")) as [lang|e] eqn:H4.
  2:{ rewrite (bind_lift_raise _ e) by reflexivity. cbn [fst snd].
      apply getitem_raises in H4. subst e.
      split; [discriminate|right; eexists; reflexivity]. }
  rewrite (bind_lift_return _ lang) by reflexivity.
  destruct (urlencode _) as [query|e] eqn:Hu.
  2:{ rewrite (bind_lift_raise _ e) by reflexivity. cbn [fst snd].
      apply urlencode_raises in Hu. subst e.
      split; [discriminate|right; eexists; reflexivity]. }
  rewrite (bind_lift_return _ query) by reflexivity. cbn [ret fst snd].
  split; [discriminate|right; eexists; reflexivity].
Qed.

Lemma merchant_bad_account
    (E : Env) (self : PayeerApi)
    (order_id amount currency description language : pyval)
    (kwargs : dict pyval) :
  validate_wallet E (_account self) = Raise ValidationError ->
  merchant E self order_id amount currency description language kwargs
  = (Raise ValidationError, []).
Proof.
  intros Hw. unfold merchant.
  rewrite (bind_lift_raise _ ValidationError) by exact Hw. reflexivity.
Qed.

(** X3. [merchant] raises ValidationError exactly when the configured
    account is not a wallet number, and then nothing has been signed; no
    order field, whatever the form thinks of it, makes it raise
    ValidationError. *)
Theorem merchant_ValidationError_iff_account
    (E : Env) (self : PayeerApi)
    (order_id amount currency description language : pyval)
    (kwargs : dict pyval) :
  let m := merchant E self order_id amount currency description language kwargs in
  (fst m = Raise ValidationError <->
   validate_wallet E (_account self) = Raise ValidationError) /\
  (fst m = Raise ValidationError -> snd m = []).
Proof.
  cbv zeta.
  destruct (validate_wallet_cases E (_account self)) as [Hok|Hbad].
  - destruct (merchant_outcome E self order_id amount currency description
                language kwargs Hok) as [Hne _].
    split; [split|]; intros H; try contradiction.
    rewrite Hok in H. discriminate.
  - rewrite (merchant_bad_account _ _ _ _ _ _ _ _ Hbad). cbn [fst snd].
    split; [split|]; auto.
Qed.

(** X4. [merchant] never reaches the network: whatever it is given, its
    trace holds no request, only the signing when it got that far. *)
Theorem merchant_never_posts
    (E : Env) (self : PayeerApi)
    (order_id amount currency description language : pyval)
    (kwargs : dict pyval) (url : pystr) (data : dict pyval) :
  ~ In (EvPost url data)
       (snd (merchant E self order_id amount currency description language kwargs)).
Proof.
  destruct (validate_wallet_cases E (_account self)) as [Hok|Hbad].
  - destruct (merchant_outcome E self order_id amount currency description
                language kwargs Hok) as [_ [Ht|(p & Ht)]]; rewrite Ht.
    + intros [].
    + intros [H|[]]. discriminate.
  - rewrite (merchant_bad_account _ _ _ _ _ _ _ _ Hbad). intros [].
Qed.

Lemma validate_wallet_None (E : Env) :
  validate_wallet E PyNone = Raise ValidationError.
Proof.
  destruct (validate_wallet_cases E PyNone) as [Hok|Hbad]; [|exact Hbad].
  exfalso. apply validate_wallet_search in Hok.
  destruct Hok as (before & ds & tail & Heq & _).
  assert (Hin : In 80 (py_str PyNone)).
  { rewrite Heq. apply in_or_app. right. left. reflexivity. }
  vm_compute in Hin. repeat (destruct Hin as [Hin|Hin]; [discriminate Hin|]).
  exact Hin.
Qed.

(** X5. When the settings give no ACCOUNT, the client built at import
    time holds [None] for it, and every [merchant] call on that client
    raises ValidationError before anything is signed. *)
Theorem payeer_api_without_account
    (E : Env) (order_id amount currency description language : pyval)
    (kwargs : dict pyval) :
  dict_get (PAYEER E) (py "ACCOUNT") = None ->
  _account (payeer_api E) = PyNone /\
  merchant E (payeer_api E) order_id amount currency description language kwargs
  = (Raise ValidationError, []).
Proof.
  intros H.
  assert (Ha : _account (payeer_api E) = PyNone).
  { unfold payeer_api, dict_get_default. cbn [_account]. rewrite H. reflexivity. }
  split; [exact Ha|].
  apply merchant_bad_account. rewrite Ha. apply validate_wallet_None.
Qed.

Lemma payeer_api_without_account_witness :
  _account (payeer_api sample_env) = PyNone /\
  merchant sample_env (payeer_api sample_env)
    (PyStr (py "1001")) (PyStr (py "10.00")) (PyStr (py "USD"))
    (PyStr (py "Test order")) PyNone []
  = (Raise ValidationError, []).
Proof.
  apply (payeer_api_without_account sample_env). reflexivity.
Defined.

(** ** Transfers *)

Lemma transfer_data_get
    (sum to cur_in cur_out comment protect protect_period protect_code : pyval) :
  let data := transfer_data sum to cur_in cur_out
                comment protect protect_period protect_code in
  dict_get data (py "action") = Some (PyStr (py "transfer")) /\
  dict_get data (py "sum") = Some sum /\
  dict_get data (py "to") = Some to /\
  dict_get data (py "curIn") = Some cur_in /\
  dict_get data (py "curOut") = Some cur_out /\
  dict_get data (py "comment")
    = (if is_not_None comment then Some comment else None) /\
  dict_get data (py "protect")
    = (if is_not_None protect then Some protect else None) /\
  dict_get data (py "protectPeriod")
    = (if is_not_None protect && is_not_None protect_period
       then Some protect_period else None) /\
  dict_get data (py "protectCode")
    = (if is_not_None protect && is_not_None protect_code
       then Some protect_code else None).
Proof.
  cbv zeta. unfold transfer_data.
  destruct (is_not_None comment), (is_not_None protect),
    (is_not_None protect_period), (is_not_None protect_code);
    rewrite ?dict_get_set; repeat split; reflexivity.
Qed.

Lemma snd_bind_silent {A B} (m : M A) (k : A -> M B) :
  (forall a, snd (k a) = []) -> snd (bind m k) = snd m.
Proof.
  intros H. destruct m as [[a|e] tr]; cbn [bind snd]; [|reflexivity].
  specialize (H a). destruct (k a) as [r tr']. cbn [snd] in *. subst tr'.
  apply app_nil_r.
Qed.

Lemma snd_request_api (E : Env) (self : PayeerApi) (params : dict pyval) :
  snd (request_api E self params)
  = [EvPost api_url (dict_update params (credentials self))].
Proof.
  rewrite request_api_unfold. cbv zeta.
  destruct (requests_post E api_url _) as [name|response]; [reflexivity|].
  destruct (json_get response (py "errors") JNull) as [errors|e]; [|reflexivity].
  destruct (json_truthy errors); reflexivity.
Qed.

(** X6. [transfer] checks the recipient first: for a recipient that is
    not a wallet number it raises ValidationError and sends nothing; for a
    valid one it sends exactly one request, to the API address, carrying
    the action, amount, recipient and currencies it was given and the
    configured credentials. *)
Theorem transfer_sends_once (E : Env) (self : PayeerApi)
    (sum to cur_in cur_out comment protect protect_period protect_code : pyval) :
  let t := transfer E self sum to cur_in cur_out
             comment protect protect_period protect_code in
  (validate_wallet E to = Raise ValidationError ->
   t = (Raise ValidationError, [])) /\
  (validate_wallet E to = Return tt ->
   exists posted,
     snd t = [EvPost api_url posted] /\
     dict_get posted (py "action") = Some (PyStr (py "transfer")) /\
     dict_get posted (py "sum") = Some sum /\
     dict_get posted (py "to") = Some to /\
     dict_get posted (py "curIn") = Some cur_in /\
     dict_get posted (py "curOut") = Some cur_out /\
     dict_get posted (py "account") = Some (_account self) /\
     dict_get posted (py "apiId") = Some (_api_id self) /\
     dict_get posted (py "apiPass") = Some (_api_pass self)).
Proof.
  cbv zeta. unfold transfer. split; intros Hw.
  - rewrite (bind_lift_raise _ ValidationError) by exact Hw. reflexivity.
  - rewrite (bind_lift_return _ tt) by exact Hw.
    eexists. split.
    + rewrite snd_bind_silent; [apply snd_request_api|].
      intros response.
      destruct (json_get response (py "historyId") (JInt 0)) as [h|e];
        [|reflexivity].
      rewrite (bind_lift_return _ h) by reflexivity.
      destruct (json_gt_zero h) as [[|]|e]; reflexivity.
    + destruct (transfer_data_get sum to cur_in cur_out
                  comment protect protect_period protect_code)
        as (H1 & H2 & H3 & H4 & H5 & _).
      rewrite !dict_get_update. cbn [credentials rev app dict_get].
      repeat split;
        first [ exact H1 | exact H2 | exact H3 | exact H4 | exact H5
              | reflexivity ].
Qed.

(** X7. A protection period or code is sent only together with
    [protect]: when [protect] is [None], the request data holds none of
    [protect], [protectPeriod] and [protectCode], whatever was given for
    the last two; a comment is sent exactly when one is given. *)
Theorem transfer_data_protect_gate
    (sum to cur_in cur_out comment protect_period protect_code : pyval) :
  let data := transfer_data sum to cur_in cur_out
                comment PyNone protect_period protect_code in
  dict_get data (py "protect") = None /\
  dict_get data (py "protectPeriod") = None /\
  dict_get data (py "protectCode") = None /\
  (dict_get data (py "comment") = None <-> comment = PyNone).
Proof.
  cbv zeta.
  destruct (transfer_data_get sum to cur_in cur_out
              comment PyNone protect_period protect_code)
    as (_ & _ & _ & _ & _ & Hc & Hp & Hpp & Hpc).
  cbn [is_not_None andb] in Hp, Hpp, Hpc.
  repeat split; try assumption.
  - rewrite Hc. destruct comment; cbn [is_not_None]; congruence.
  - intros ->. rewrite Hc. reflexivity.
Qed.

(** ** Errors the boolean wrappers let through *)

(** X8. [check_user] turns only the service's own error report into
    [False]: when the transport fails, the failure is raised, and when the
    answer is anything but a JSON object (null, a boolean, a number, a
    string or a list), AttributeError is raised. *)
Theorem check_user_lets_other_errors_through
    (E : Env) (self : PayeerApi) (user : pyval) :
  let posted :=
    dict_update [(py "action", PyStr (py "checkUser")); (py "user", user)]
                (credentials self) in
  (forall name, requests_post E api_url posted = inl name ->
     fst (check_user E self user) = Raise (TransportError name)) /\
  (forall answer,
     (forall fields, answer <> JDict fields) ->
     requests_post E api_url posted = inr answer ->
     fst (check_user E self user) = Raise AttributeError).
Proof.
  cbv zeta. unfold check_user. split.
  - intros name H. rewrite except_after_request, request_api_unfold.
    cbv zeta. rewrite H. reflexivity.
  - intros answer Hno H. rewrite except_after_request, request_api_unfold.
    cbv zeta. rewrite H.
    destruct answer; try reflexivity.
    exfalso. exact (Hno _ eq_refl).
Qed.

(** X9. With an answer free of errors, the reading actions return the
    field they are named after, and raise KeyError with the field's name
    when the answer lacks it. *)
Theorem reading_actions_extract (E : Env) (self : PayeerApi) (body : dict json) :
  json_truthy (dict_get_default body (py "errors") JNull) = false ->
  let answered params :=
    requests_post E api_url (dict_update params (credentials self))
    = inr (JDict body) in
  (answered [(py "action", PyStr (py "balance"))] ->
   fst (get_balance E self) = getitem body (py "balance")) /\
  (forall output,
     answered [(py "action", PyStr (py "getExchangeRate")); (py "output", output)] ->
     fst (get_exchange_rate E self output) = getitem body (py "rate")) /\
  (answered [(py "action", PyStr (py "getPaySystems"))] ->
   fst (get_pay_systems E self) = getitem body (py "list")) /\
  (forall history_id,
     answered [(py "action", PyStr (py "historyInfo")); (py "historyId", history_id)] ->
     fst (get_history_info E self history_id) = getitem body (py "info")) /\
  (forall params,
     answered (dict_set params (py "action") (PyStr (py "history"))) ->
     fst (history E self params) = getitem body (py "history")).
Proof.
  intros Herr answered.
  assert (Hreq : forall params, answered params ->
            fst (request_api E self params) = Return (JDict body)).
  { intros params H. rewrite (request_api_body _ _ _ _ H), Herr. reflexivity. }
  repeat split; intros;
    unfold get_balance, get_exchange_rate, get_pay_systems, get_history_info,
      history;
    rewrite (fst_bind_fst _ (JDict body)) by (apply Hreq; assumption);
    reflexivity.
Qed.

Lemma reading_actions_extract_witness :
  fst (get_balance sample_env sample_api) = Raise (KeyError (py "balance")).
Proof.
  destruct (reading_actions_extract sample_env sample_api
              [(py "auth_error", JStr (py "0"));
               (py "errors", JList []);
               (py "historyId", JInt 1915463)] eq_refl) as (H & _).
  exact (H eq_refl).
Defined.

(** X10. [history] always asks for the history: whatever [action] the
    caller puts among the parameters, the one request it sends carries
    [action = history] and no other value under that name. *)
Theorem history_forces_action
    (E : Env) (self : PayeerApi) (params : dict pyval) :
  exists posted,
    snd (history E self params) = [EvPost api_url posted] /\
    dict_get posted (py "action") = Some (PyStr (py "history")) /\
    (forall v, In (py "action", v) posted -> v = PyStr (py "history")).
Proof.
  eexists. split; [|split].
  - unfold history. rewrite snd_bind_silent; [apply snd_request_api|].
    intros response. reflexivity.
  - rewrite posted_unfold, !dict_get_set. reflexivity.
  - intros v H. rewrite posted_unfold in H.
    apply In_dict_set_other in H; [|apply py_neq; reflexivity].
    apply In_dict_set_other in H; [|apply py_neq; reflexivity].
    apply In_dict_set_other in H; [|apply py_neq; reflexivity].
    apply In_dict_set_same in H. exact H.
Qed.

(** ** The query string *)

Lemma quote_byte_chars (b : Z) :
  is_byte b -> forallb quoted_char (quote_byte b) = true.
Proof.
  intros Hb.
  apply (forallb_below (fun b => forallb quoted_char (quote_byte b)) 256);
    [vm_compute; reflexivity|exact Hb].
Qed.

Lemma quote_plus_chars (s q : pystr) :
  is_text s -> quote_plus s = Return q -> forallb quoted_char q = true.
Proof.
  intros Hs. unfold quote_plus.
  destruct (utf8_encode_text s Hs) as (bs & -> & Hb).
  intros H. injection H as <-.
  induction Hb as [|b rest Hb Hrest IH]; [reflexivity|].
  cbn [flat_map]. rewrite forallb_app, IH, (quote_byte_chars b Hb). reflexivity.
Qed.

Lemma quote_bytes_chars (data : pybytes) :
  Forall is_byte data -> forallb quoted_char (flat_map quote_byte data) = true.
Proof.
  intros Hb. induction Hb as [|b rest Hb Hrest IH]; [reflexivity|].
  cbn [flat_map]. rewrite forallb_app, IH, (quote_byte_chars b Hb). reflexivity.
Qed.

Lemma quote_value_chars (v : pyval) (q : pystr) :
  quotable v -> quote_value v = Return q -> forallb quoted_char q = true.
Proof.
  destruct v as [|s|data|shown]; cbn [quotable quote_value];
    try apply quote_plus_chars.
  intros Hb H. injection H as <-. apply quote_bytes_chars, Hb.
Qed.

Lemma count_app (c : Z) (a b : pystr) :
  count c (a ++ b) = (count c a + count c b)%nat.
Proof. unfold count. rewrite filter_app, length_app. reflexivity. Qed.

Lemma count_cons (c x : Z) (s : pystr) :
  count c (x :: s) = ((if Z.eqb c x then 1 else 0) + count c s)%nat.
Proof. unfold count. cbn [filter]. destruct (c =? x); reflexivity. Qed.

Lemma count_quoted (c : Z) (q : pystr) :
  quoted_char c = false -> forallb quoted_char q = true -> count c q = 0%nat.
Proof.
  intros Hc. unfold count. induction q as [|x q IH]; [reflexivity|].
  cbn [forallb filter]. rewrite andb_true_iff. intros [Hx Hq].
  destruct (Z.eqb_spec c x) as [->|_]; [congruence|apply IH, Hq].
Qed.

Lemma urlencode_items_counts (d : dict pyval) (items : list pystr) :
  text_items d -> urlencode_items d = Return items ->
  length items = length d /\
  Forall (fun item => count 38 item = 0%nat /\ count 61 item = 1%nat) items.
Proof.
  intros H. revert items.
  induction H as [|[k v] rest [Hk Hv] Hrest IH]; cbn [urlencode_items];
    intros items.
  - intros E. injection E as <-. split; [reflexivity|constructor].
  - cbn [fst snd] in Hk, Hv.
    destruct (quote_plus k) as [qk|] eqn:Eqk; [|discriminate].
    destruct (quote_value v) as [qv|] eqn:Eqv; [|discriminate].
    destruct (urlencode_items rest) as [items'|]; [|discriminate].
    intros E. injection E as <-.
    destruct (IH items' eq_refl) as [Hlen Hall].
    pose proof (quote_plus_chars _ _ Hk Eqk) as Ck.
    pose proof (quote_value_chars _ _ Hv Eqv) as Cv.
    split; [cbn [length]; congruence|].
    constructor; [|exact Hall].
    change (qk ++ py "=" ++ qv) with (qk ++ 61 :: qv).
    rewrite !count_app, !count_cons.
    rewrite !(count_quoted 38), !(count_quoted 61) by (assumption || reflexivity).
    split; reflexivity.
Qed.

Lemma count_join_amp (items : list pystr) :
  Forall (fun item => count 38 item = 0%nat /\ count 61 item = 1%nat) items ->
  count 38 (join (py "&") items) = pred (length items) /\
  count 61 (join (py "&") items) = length items.
Proof.
  intros H. induction H as [|x rest [H38 H61] Hrest IH]; [split; reflexivity|].
  destruct rest as [|y rest'].
  - cbn [join length pred]. split; assumption.
  - change (join (py "&") (x :: y :: rest'))
      with (x ++ py "&" ++ join (py "&") (y :: rest')).
    rewrite !count_app. destruct IH as [IH38 IH61].
    rewrite H38, H61, IH38, IH61. cbn [length pred].
    split; reflexivity.
Qed.

(** X11. Whatever text the keys and values are, the query string
    [urlencode] builds is made of unreserved characters, [+], [%], [=] and
    [&] only, with exactly one [=] for each parameter and an [&] only
    between two parameters: a value cannot bring in a parameter of its own. *)
Theorem urlencode_one_pair_each (d : dict pyval) :
  text_items d ->
  exists q,
    urlencode d = Return q /\
    count 61 q = length d /\
    count 38 q = pred (length d).
Proof.
  intros H. unfold urlencode.
  destruct (urlencode_items d) as [items|e] eqn:Hi.
  - destruct (urlencode_items_counts d items H Hi) as [Hlen Hall].
    destruct (count_join_amp items Hall) as [H38 H61].
    exists (join (py "&") items). rewrite H38, H61, Hlen. auto.
  - exfalso. destruct (urlencode_text d H) as (q & Hq).
    unfold urlencode in Hq. rewrite Hi in Hq. discriminate.
Qed.

Lemma urlencode_one_pair_each_witness :
  exists q,
    urlencode [(py "m_desc", PyStr (py "a&b=c d")); (py "lang", PyNone)]
      = Return q /\
    count 61 q = 2%nat /\ count 38 q = 1%nat.
Proof.
  apply (urlencode_one_pair_each
           [(py "m_desc", PyStr (py "a&b=c d")); (py "lang", PyNone)]).
  apply Forall_forall. intros kv Hin. cbn [In] in Hin.
  destruct Hin as [<-|[<-|[]]]; split; apply is_textb_ok; reflexivity.
Defined.

(** ** What the signature cannot tell apart, and what it refuses *)

Lemma all_str_None (items : list pyval) :
  all_str items = None <-> exists v, In v items /\ not_str v.
Proof.
  induction items as [|v rest IH]; cbn [all_str].
  - split; [discriminate|]. intros (v & [] & _).
  - destruct v as [|s|data|shown].
    + split; [|reflexivity]. intros _. exists PyNone. cbn. auto.
    + destruct (all_str rest) as [fields|]; cbn [option_map].
      * split; [discriminate|]. intros (v & [<-|Hin] & Hv); [contradiction Hv|].
        destruct IH as [_ IH]. discriminate IH. exists v. auto.
      * split; [|reflexivity]. intros _.
        destruct IH as [IH _]. destruct (IH eq_refl) as (v & Hin & Hv).
        exists v. cbn [In]. auto.
    + split; [|reflexivity]. intros _. exists (PyBytes data). cbn. auto.
    + split; [|reflexivity]. intros _. exists (PyObj shown). cbn. auto.
Qed.

(** X12. [generate_signature] raises TypeError exactly when one of the
    items is not a [str] ([None] or any other object); [None] in place of
    the sequence is a TypeError as well. *)
Theorem generate_signature_TypeError (items : list pyval) :
  (generate_signature (Some items) = Raise TypeError <->
   exists v, In v items /\ not_str v) /\
  generate_signature None = Raise TypeError.
Proof.
  split; [|reflexivity].
  unfold generate_signature. rewrite <- all_str_None.
  destruct (all_str items) as [fields|]; [|tauto].
  destruct (utf8_encode _); split; discriminate.
Qed.

(** X13. The signature sees only the joined string, so it cannot tell
    where one field ends and the next begins: moving a colon-separated
    piece from the end of one field to the start of the next leaves the
    signature unchanged. *)
Theorem generate_signature_field_boundary (a b c : pystr) (before after : list pystr) :
  generate_signature
    (Some (map PyStr (before ++ [a ++ py ":" ++ b; c] ++ after)))
  = generate_signature
      (Some (map PyStr (before ++ [a; b ++ py ":" ++ c] ++ after))).
Proof.
  assert (Hj : forall rest,
    join (py ":") ((a ++ py ":" ++ b) :: c :: rest)
    = join (py ":") (a :: (b ++ py ":" ++ c) :: rest)).
  { intros rest.
    change (join (py ":") ((a ++ py ":" ++ b) :: c :: rest))
      with ((a ++ py ":" ++ b) ++ py ":" ++ join (py ":") (c :: rest)).
    change (join (py ":") (a :: (b ++ py ":" ++ c) :: rest))
      with (a ++ py ":" ++ join (py ":") ((b ++ py ":" ++ c) :: rest)).
    destruct rest as [|r rest].
    - cbn [join]. rewrite <- !app_assoc. reflexivity.
    - change (join (py ":") (c :: r :: rest))
        with (c ++ py ":" ++ join (py ":") (r :: rest)).
      change (join (py ":") ((b ++ py ":" ++ c) :: r :: rest))
        with ((b ++ py ":" ++ c) ++ py ":" ++ join (py ":") (r :: rest)).
      rewrite <- !app_assoc. reflexivity. }
  assert (Hb : join (py ":") (before ++ [a ++ py ":" ++ b; c] ++ after)
               = join (py ":") (before ++ [a; b ++ py ":" ++ c] ++ after)).
  { induction before as [|x before IH]; [apply Hj|].
    cbn [app] in *.
    destruct before as [|y before'].
    - cbn [app] in *.
      change (join (py ":") (x :: (a ++ py ":" ++ b) :: c :: after))
        with (x ++ py ":" ++ join (py ":") ((a ++ py ":" ++ b) :: c :: after)).
      change (join (py ":") (x :: a :: (b ++ py ":" ++ c) :: after))
        with (x ++ py ":" ++ join (py ":") (a :: (b ++ py ":" ++ c) :: after)).
      rewrite Hj. reflexivity.
    - cbn [app] in *.
      change (join (py ":") (x :: y :: ?l)) with (x ++ py ":" ++ join (py ":") (y :: l)).
      cbn [join] in *. rewrite IH. reflexivity. }
  unfold generate_signature. rewrite !all_str_map, Hb. reflexivity.
Qed.

(** ** More on wallet numbers *)

(** X14. Validation succeeds exactly when the string ends with a wallet
    number, or with a wallet number followed by one final newline; in
    every other case it raises ValidationError. *)
Theorem validate_wallet_exact (E : Env) (wallet : pyval) :
  (validate_wallet E wallet = Return tt <->
   ends_with_wallet E (py_str wallet) \/
   exists s, py_str wallet = s ++ [10] /\ ends_with_wallet E s) /\
  (validate_wallet E wallet <> Return tt ->
   validate_wallet E wallet = Raise ValidationError).
Proof.
  split.
  - rewrite validate_wallet_search. split.
    + intros (before & ds & tail & Heq & Hlen & Hds & Hend).
      apply digits_decimal in Hds.
      destruct (at_end_cases tail Hend) as [-> | ->].
      * left. exists before, (80 :: ds). rewrite app_nil_r in Heq.
        split; [exact Heq|]. exists ds. auto.
      * right. exists (before ++ 80 :: ds). split.
        -- rewrite Heq, <- app_assoc. reflexivity.
        -- exists before, (80 :: ds). split; [reflexivity|]. exists ds. auto.
    + intros [(before & w & Heq & ds & -> & Hlen & Hds)
             |(s & Heq & before & w & -> & ds & -> & Hlen & Hds)];
        apply digits_decimal in Hds.
      * exists before, ds, []. rewrite app_nil_r. auto.
      * exists before, ds, [10]. rewrite Heq, <- app_assoc. auto.
  - intros H. destruct (validate_wallet_cases E wallet); [contradiction|assumption].
Qed.

Lemma digits_exclude (E : Env) (c : Z) (ds : pystr) :
  is_digit E c = false -> Forall (fun d => is_digit E d = true) ds -> ~ In c ds.
Proof.
  intros Hc Hds Hin. rewrite Forall_forall in Hds.
  specialize (Hds c Hin). congruence.
Qed.

(** X15. For a string made of [P] and then digits only, validation
    succeeds exactly when there are 7 to 12 digits (given a digit table in
    which [P] and the newline are not digits, as in Unicode). *)
Theorem validate_wallet_digit_count (E : Env) (ds : pystr) :
  unicode_decimal E 80 = false ->
  unicode_decimal E 10 = false ->
  Forall (fun d => is_digit E d = true) ds ->
  (validate_wallet E (PyStr (80 :: ds)) = Return tt <->
   (7 <= length ds <= 12)%nat).
Proof.
  intros HP Hnl Hds.
  assert (HP' : is_digit E 80 = false) by (unfold is_digit; rewrite HP; reflexivity).
  assert (Hnl' : is_digit E 10 = false) by (unfold is_digit; rewrite Hnl; reflexivity).
  rewrite validate_wallet_search. cbn [py_str]. split.
  - intros (before & ds' & tail & Heq & Hlen & Hds' & Hend).
    destruct before as [|b before].
    + cbn [app] in Heq. injection Heq as Heq.
      destruct (at_end_cases tail Hend) as [-> | ->].
      * rewrite app_nil_r in Heq. subst ds'. exact Hlen.
      * exfalso. apply (digits_exclude E 10 ds Hnl' Hds).
        rewrite Heq. apply in_or_app. right. left. reflexivity.
    + exfalso. cbn [app] in Heq. injection Heq as _ Heq.
      apply (digits_exclude E 80 ds HP' Hds).
      rewrite Heq. apply in_or_app. right. left. reflexivity.
  - intros Hlen. exists [], ds, []. rewrite app_nil_r. auto.
Qed.

Lemma validate_wallet_digit_count_witness :
  validate_wallet sample_env (PyStr (80 :: py "1234567890123")) = Return tt <->
  (7 <= length (py "1234567890123") <= 12)%nat.
Proof.
  apply (validate_wallet_digit_count sample_env (py "1234567890123")).
  - reflexivity.
  - reflexivity.
  - apply Forall_forall. intros d Hd. vm_compute in Hd.
    repeat (destruct Hd as [<-|Hd]; [reflexivity|]). contradiction.
Defined.

(** ** More on the description *)




Lemma b64_char_in_alphabet (i : Z) :
  0 <= i < 64 -> In (b64_char i) b64_alphabet.
Proof.
  intros Hi. unfold b64_char. apply nth_In.
  change (length b64_alphabet) with 64%nat. lia.
Qed.

Lemma b64encode_shape (bs : pybytes) :
  Forall is_byte bs ->
  length (b64encode bs) = (4 * ((length bs + 2) / 3))%nat /\
  Forall (fun c => In c b64_alphabet \/ c = b64_pad) (b64encode bs).
Proof.
  induction bs as [|b0|b0 b1|b0 b1 b2 rest IH] using list_ind3; intros H.
  - split; [reflexivity|constructor].
  - inversion H as [|? ? H0 _]; subst.
    destruct (byte_facts b0 H0) as (A1 & _ & A3 & _).
    split; [reflexivity|]. cbn [b64encode].
    repeat (apply Forall_cons;
            [first [ left; apply b64_char_in_alphabet; assumption
                   | right; reflexivity ]|]).
    constructor.
  - inversion H as [|? ? H0 H']; subst. inversion H' as [|? ? H1 _]; subst.
    destruct (byte_facts b0 H0) as (A1 & _).
    destruct (byte_facts b1 H1) as (_ & _ & _ & A4 & _).
    destruct (pair_facts b0 b1 H0 H1) as (P1 & _).
    split; [reflexivity|]. cbn [b64encode].
    repeat (apply Forall_cons;
            [first [ left; apply b64_char_in_alphabet; assumption
                   | right; reflexivity ]|]).
    constructor.
  - inversion H as [|? ? H0 H']; subst. inversion H' as [|? ? H1 H'']; subst.
    inversion H'' as [|? ? H2 Hrest]; subst.
    destruct (byte_facts b0 H0) as (A1 & _).
    destruct (byte_facts b2 H2) as (_ & A2 & _).
    destruct (pair_facts b0 b1 H0 H1) as (P1 & _).
    destruct (pair_facts b1 b2 H1 H2) as (_ & _ & _ & P2 & _).
    destruct (IH Hrest) as [IHlen IHall].
    cbn [b64encode]. split.
    + cbn [length]. rewrite IHlen.
      replace (S (S (S (length rest))) + 2)%nat
        with ((length rest + 2) + 1 * 3)%nat by lia.
      rewrite Nat.div_add by discriminate. lia.
    + repeat (apply Forall_cons; [left; apply b64_char_in_alphabet; assumption|]).
      exact IHall.
Qed.

(** X17. What [generate_description] returns for a text is padded
    base64: four characters for every three bytes of the UTF-8 form,
    rounded up, each from the base64 alphabet or the [=] sign. *)
Theorem generate_description_shape (s : pystr) :
  is_text s ->
  exists bs encoded,
    utf8_encode s = Some bs /\
    generate_description (PyStr s) = Return encoded /\
    length encoded = (4 * ((length bs + 2) / 3))%nat /\
    Forall (fun c => In c b64_alphabet \/ c = b64_pad) encoded.
Proof.
  intros Hs. destruct (utf8_encode_text s Hs) as (bs & Hbs & Hb).
  destruct (b64encode_shape bs Hb) as [Hlen Hall].
  exists bs, (b64encode bs).
  split; [exact Hbs|]. split; [apply generate_description_text; assumption|].
  split; assumption.
Qed.

Lemma generate_description_shape_witness :
  exists bs encoded,
    utf8_encode [233; 8364] = Some bs /\
    generate_description (PyStr [233; 8364]) = Return encoded /\
    length encoded = (4 * ((length bs + 2) / 3))%nat /\
    Forall (fun c => In c b64_alphabet \/ c = b64_pad) encoded.
Proof.
  apply (generate_description_shape [233; 8364]).
  apply is_textb_ok. reflexivity.
Defined.

(** ** What a returned checkout link holds *)

Lemma bind_lift_inv {A B} (r : result A) (k : A -> M B) (b : B) :
  fst (bind (lift r) k) = Return b ->
  exists a, r = Return a /\ fst (k a) = Return b.
Proof.
  destruct r as [a|e]; [|discriminate].
  rewrite (bind_lift_return _ a) by reflexivity. eauto.
Qed.

(** X18. Whenever [merchant] returns, the account has passed
    validation, the signature it returns is the one computed over the
    merchant id, the form's order id, amount and currency, the base64
    description and the secret key, the location is the merchant address
    followed by the encoding of exactly the parameters returned, and the
    description handed back is the caller's own. *)
Theorem merchant_returned_link
    (E : Env) (self : PayeerApi)
    (order_id amount currency description0 language : pyval)
    (kwargs : dict pyval) (r : merchant_result) :
  fst (merchant E self order_id amount currency description0 language kwargs)
    = Return r ->
  let data :=
    MerchantForm E (submitted E order_id amount currency description0 language) in
  exists oid amt cur lang m_desc query,
    validate_wallet E (_account self) = Return tt /\
    dict_get data (py "order_id") = Some oid /\
    dict_get data (py "amount") = Some amt /\
    dict_get data (py "currency") = Some cur /\
    dict_get data (py "language") = Some lang /\
    generate_description (dict_get_default data (py "description") (PyStr []))
      = Return m_desc /\
    generate_signature
      (Some [_merchant_id self; oid; amt; cur; PyStr m_desc;
             _merchant_secret_key self])
      = Return (signature r) /\
    params r
      = dict_update
          [ (py "m_shop", _merchant_id self); (py "m_orderid", oid);
            (py "m_amount", amt); (py "m_curr", cur);
            (py "m_desc", PyStr m_desc); (py "m_sign", PyStr (signature r));
            (py "m_process", PyStr (py "send")); (py "lang", lang) ]
          kwargs /\
    urlencode (params r) = Return query /\
    location r = merchant_url ++ query /\
    description r = description0.
Proof.
  intros H data. unfold merchant in H.
  fold (submitted E order_id amount currency description0 language) in H.
  fold data in H.
  apply bind_lift_inv in H. destruct H as ([] & Hw & H).
  apply bind_lift_inv in H. destruct H as (m_desc & Hd & H).
  apply bind_lift_inv in H. destruct H as (oid & Hoid & H).
  apply bind_lift_inv in H. destruct H as (amt & Hamt & H).
  apply bind_lift_inv in H. destruct H as (cur & Hcur & H).
  destruct (generate_signature
              (Some [_merchant_id self; oid; amt; cur; PyStr m_desc;
                     _merchant_secret_key self])) as [sig|e] eqn:Hs.
  2:{ rewrite (call_generate_signature_raise _ e) in H by exact Hs.
      discriminate H. }
  rewrite (call_generate_signature_return _ sig) in H by exact Hs.
  cbn [fst] in H.
  apply bind_lift_inv in H. destruct H as (lang & Hlang & H).
  apply bind_lift_inv in H. destruct H as (query & Hq & H).
  cbn [ret fst] in H. injection H as <-. cbn [signature params location description].
  unfold getitem in Hoid, Hamt, Hcur, Hlang.
  destruct (dict_get data (py "order_id")) as [oid'|] eqn:E1; [|discriminate].
  destruct (dict_get data (py "amount")) as [amt'|] eqn:E2; [|discriminate].
  destruct (dict_get data (py "currency")) as [cur'|] eqn:E3; [|discriminate].
  destruct (dict_get data (py "language")) as [lang'|] eqn:E4; [|discriminate].
  injection Hoid as ->. injection Hamt as ->. injection Hcur as ->.
  injection Hlang as ->.
  exists oid, amt, cur, lang, m_desc, query.
  repeat split; assumption || reflexivity.
Qed.

Lemma merchant_returned_link_witness :
  exists r,
    fst (merchant sample_env sample_api
           (PyStr (py "1001")) (PyStr (py "10.00")) (PyStr (py "USD"))
           (PyStr (py "Test order")) PyNone []) = Return r /\
    exists query,
      urlencode (params r) = Return query /\
      location r = merchant_url ++ query /\
      description r = PyStr (py "Test order").
Proof.
  eexists. split; [vm_compute; reflexivity|].
  match goal with
  | |- exists query, urlencode (params ?r) = _ /\ _ =>
      destruct (merchant_returned_link sample_env sample_api
                  (PyStr (py "1001")) (PyStr (py "10.00")) (PyStr (py "USD"))
                  (PyStr (py "Test order")) PyNone [] r)
        as (oid & amt & cur & lang & m_desc & query & _ & _ & _ & _ & _ & _ & _
            & _ & Hq & Hl & Hd)
  end.
  - vm_compute. reflexivity.
  - exists query. auto.
Defined.
